(** * rwslib.builders.core: the ODM document root builder

    A shallow embedding of [rwslib/builders/core.py] (class [ODM]) and a
    verification of its documented behaviour: attribute validation at
    assignment time, child attachment, rendering through an
    [xml.etree] tree builder and text serialization.

    Python objects are modelled by explicit state passing: a method of
    [ODM] is a function from the object's state to the new state and
    either a returned value or a raised exception. *)

From Stdlib Require Import String Ascii List ZArith Bool Lia.
Import ListNotations.
Local Open Scope string_scope.
Local Open Scope list_scope.

Set Implicit Arguments.
Set Warnings "-register-all".

(** ** Sequencing of effects *)

Class Monad (m : Type -> Type) :=
  { ret : forall A, A -> m A;
    bind : forall A B, m A -> (A -> m B) -> m B }.
Arguments ret {m _ A} _.
Arguments bind {m _ A B} _ _.

Declare Scope monad_scope.
Delimit Scope monad_scope with monad.
Notation "x <- c ;; k" := (bind c (fun x => k))
  (at level 61, c at next level, right associativity) : monad_scope.
Notation "' p <- c ;; k" := (bind c (fun x => let p := x in k))
  (at level 61, p pattern, c at next level, right associativity) : monad_scope.
Notation "c ;; k" := (bind c (fun _ => k))
  (at level 61, right associativity) : monad_scope.
Local Open Scope monad_scope.

(** ** Python values *)

Module Py.

(** [datetime.date]: year, month, day. *)
Record date := mk_date { year : nat; month : nat; day : nat }.

(** [datetime.datetime]: a date, a time of day, and the UTC offset of its
    [tzinfo] in seconds ([None] for a naive value). *)
Record datetime := mk_datetime
  { dt_date : date; hour : nat; minute : nat; second : nat;
    microsecond : nat; utcoffset : option Z }.

(** Modelled from the spec: the enumeration [GranularityType] of
    [rwslib.builders.constants], a plain [enum.Enum] whose members carry
    their external string value ("drawn from a fixed enumeration", "using
    the enumeration's external string value").  The member
    [AllClinicalData] is the one named by [ODM.__init__]. *)
Module GranularityType.

Inductive t :=
| All | Metadata | AdminData | ReferenceData | AllClinicalData
| SingleSite | SingleSubject.

Definition value (g : t) : string :=
  match g with
  | All => "All"
  | Metadata => "Metadata"
  | AdminData => "AdminData"
  | ReferenceData => "ReferenceData"
  | AllClinicalData => "AllClinicalData"
  | SingleSite => "SingleSite"
  | SingleSubject => "SingleSubject"
  end.

End GranularityType.

(** Scalar values: what the constructor arguments and the attribute values
    of an element range over. *)
Inductive pyval :=
| PyNone
| PyBool (b : bool)
| PyInt (z : Z)
| PyStr (s : string)
| PyDate (d : date)
| PyDateTime (dt : datetime)
| PyEnum (g : GranularityType.t).

(** Truth value testing ([if x:], [x or y]).  Dates and members of a plain
    [Enum] are always true. *)
Definition truthy (v : pyval) : bool :=
  match v with
  | PyNone => false
  | PyBool b => b
  | PyInt z => negb (Z.eqb z 0)
  | PyStr s => negb (String.eqb s "")
  | PyDate _ | PyDateTime _ | PyEnum _ => true
  end.

Definition is_None (v : pyval) : bool :=
  match v with PyNone => true | _ => false end.

(** [x or y] *)
Definition or_else (x y : pyval) : pyval := if truthy x then x else y.

(** *** [isoformat] *)

Definition digit (n : nat) : ascii := ascii_of_nat (48 + n mod 10).

(** ["%0<w>d" % n] for [n < 10 ^ w]: exactly [w] decimal digits. *)
Fixpoint zfill (w n : nat) : string :=
  match w with
  | O => ""
  | S w' => zfill w' (n / 10) ++ String (digit n) ""
  end.

Definition date_isoformat (d : date) : string :=
  zfill 4 (year d) ++ "-" ++ zfill 2 (month d) ++ "-" ++ zfill 2 (day d).

Definition format_offset (off : option Z) : string :=
  match off with
  | None => ""
  | Some z =>
      let sign := if Z.ltb z 0 then "-" else "+" in
      let a := Z.to_nat (Z.abs z) in
      let hh := a / 3600 in
      let mm := (a mod 3600) / 60 in
      let ss := a mod 60 in
      sign ++ zfill 2 hh ++ ":" ++ zfill 2 mm
           ++ (if Nat.eqb ss 0 then "" else ":" ++ zfill 2 ss)
  end.

Definition datetime_isoformat (t : datetime) : string :=
  date_isoformat (dt_date t) ++ "T"
    ++ zfill 2 (hour t) ++ ":" ++ zfill 2 (minute t) ++ ":" ++ zfill 2 (second t)
    ++ (if Nat.eqb (microsecond t) 0 then "" else "." ++ zfill 6 (microsecond t))
    ++ format_offset (utcoffset t).

End Py.
Import Py.

(** ** Element trees and the tree builder of [xml.etree] *)

Module ET.

(** A [dict] with string keys, in insertion order. *)
Definition dict := list (string * pyval).

Fixpoint dict_set (d : dict) (k : string) (v : pyval) : dict :=
  match d with
  | [] => [(k, v)]
  | (k', v') :: d' =>
      if String.eqb k' k then (k', v) :: d' else (k', v') :: dict_set d' k v
  end.

Fixpoint dict_get (d : dict) (k : string) : option pyval :=
  match d with
  | [] => None
  | (k', v') :: d' => if String.eqb k' k then Some v' else dict_get d' k
  end.

Definition dict_has (d : dict) (k : string) : bool :=
  match dict_get d k with Some _ => true | None => false end.

Definition keys (d : dict) : list string := map fst d.

(** An [Element]: tag, attributes, text, children, tail. *)
Inductive Element :=
| Elem (tag : string) (attrib : dict) (text : option string)
       (children : list Element) (tail : option string).

Definition tag_of (e : Element) : string :=
  match e with Elem t _ _ _ _ => t end.
Definition attrib_of (e : Element) : dict :=
  match e with Elem _ a _ _ _ => a end.
Definition text_of (e : Element) : option string :=
  match e with Elem _ _ x _ _ => x end.
Definition children_of (e : Element) : list Element :=
  match e with Elem _ _ _ c _ => c end.
Definition tail_of (e : Element) : option string :=
  match e with Elem _ _ _ _ x => x end.

Definition with_tail (e : Element) (x : option string) : Element :=
  match e with Elem t a s c _ => Elem t a s c x end.

(** Induction over elements that reaches the children. *)
Section Element_induction.
Variable P : Element -> Prop.
Hypothesis H_elem : forall t a x c y, Forall P c -> P (Elem t a x c y).

Fixpoint Element_ind' (e : Element) : P e :=
  match e with
  | Elem t a x c y =>
      H_elem t a x y
        ((fix go (l : list Element) : Forall P l :=
            match l with
            | [] => Forall_nil P
            | e' :: l' => Forall_cons e' (Element_ind' e') (go l')
            end) c)
  end.
End Element_induction.

(** *** Sub-builders, arbitrary Python objects, exceptions *)

(** The three classes of sub-builders an [ODM] can receive. *)
Inductive klass := ClinicalData | Study | AdminData.

Definition klass_eqb (a b : klass) : bool :=
  match a, b with
  | ClinicalData, ClinicalData | Study, Study | AdminData, AdminData => true
  | _, _ => false
  end.

(** A sub-builder object: its class, its identity, and the element its
    [build] method renders into a tree builder. *)
Record child := mk_child
  { ch_class : klass; ch_id : nat; ch_elem : Element }.

(** Any object a caller can pass: a scalar or a sub-builder. *)
Inductive pyobj :=
| PyVal (v : pyval)
| PyChild (c : child).

(** [isinstance(o, k)] for a sub-builder class [k]. *)
Definition isinstance (o : pyobj) (k : klass) : bool :=
  match o with
  | PyChild c => klass_eqb (ch_class c) k
  | PyVal _ => false
  end.

(** [isinstance(o, (k1, ..., kn))] *)
Definition isinstance_any (o : pyobj) (ks : list klass) : bool :=
  existsb (isinstance o) ks.

(** [isinstance(o, (datetime.datetime, datetime.date))] *)
Definition isinstance_date (o : pyobj) : bool :=
  match o with
  | PyVal (PyDate _) | PyVal (PyDateTime _) => true
  | _ => false
  end.

(** [isinstance(o, GranularityType)] *)
Definition isinstance_GranularityType (o : pyobj) : bool :=
  match o with PyVal (PyEnum _) => true | _ => false end.

(** [o.isoformat()], defined on dates and date-times. *)
Definition isoformat (o : pyobj) : option string :=
  match o with
  | PyVal (PyDate d) => Some (date_isoformat d)
  | PyVal (PyDateTime t) => Some (datetime_isoformat t)
  | _ => None
  end.

(** The text of an exception: a literal, [template % value], or
    [template.format(type(value))]; the formatting of the value itself is
    left symbolic. *)
Inductive message :=
| Msg (s : string)
| MsgPercent (template : string) (value : pyobj)
| MsgFormatType (template : string) (value : pyobj).

Inductive exn :=
| ValueError (m : message)
| AssertionError (m : string)
| IndexError (m : string)
| AttributeError (m : string)
| TypeError (m : string)
| ParseError (m : string).

Inductive result (A : Type) :=
| Ok (a : A)
| Raise (e : exn).
Arguments Ok {A} a.
Arguments Raise {A} e.

#[export] Instance result_Monad : Monad result :=
  {| ret := fun A a => Ok a;
     bind := fun A B r k =>
               match r with
               | Ok a => k a
               | Raise e => Raise e
               end |}.

(** *** [TreeBuilder]

    The builder [cElementTree] provides (the accelerated one): [start],
    [data], [end] and [close], with the buffering of character data until
    the next [start] or [end].  The tree under construction is kept as
    the stack of open elements; an element is recorded among its parent's
    children when it is ended, and [close] puts the open ones in place. *)

(** An element that has been started and not yet ended; its children are
    kept latest first. *)
Record frame := mk_frame
  { f_tag : string; f_attrib : dict; f_text : option string;
    f_children : list Element }.

Definition close_frame (f : frame) : Element :=
  Elem (f_tag f) (f_attrib f) (f_text f) (rev (f_children f)) None.

(** Where [_last] points, together with [_tail]: nowhere yet, at the
    innermost open element (data becomes its text), or at the element
    ended last (data becomes its tail): the latest child of the innermost
    open element, or the top-level element. *)
Inductive last_ref := LastNone | LastOpen | LastChild | LastRoot.

Record TreeBuilder := mk_tb
  { _data : list string;
    _elem : list frame;      (* innermost first *)
    _last : last_ref;
    _root : option Element }.

Definition TreeBuilder_new : TreeBuilder := mk_tb [] [] LastNone None.

Definition _flush (b : TreeBuilder) : result TreeBuilder :=
  match _data b with
  | [] => Ok b
  | _ :: _ =>
      let text := String.concat "" (_data b) in
      match _last b, _elem b, _root b with
      | LastOpen, f :: fs, r =>
          match f_text f with
          | None =>
              Ok (mk_tb [] (mk_frame (f_tag f) (f_attrib f) (Some text)
                              (f_children f) :: fs) LastOpen r)
          | Some _ => Raise (AssertionError "internal error (text)")
          end
      | LastChild, f :: fs, r =>
          match f_children f with
          | e :: es =>
              match tail_of e with
              | None =>
                  Ok (mk_tb [] (mk_frame (f_tag f) (f_attrib f) (f_text f)
                                  (with_tail e (Some text) :: es) :: fs)
                        LastChild r)
              | Some _ => Raise (AssertionError "internal error (tail)")
              end
          | [] => Ok (mk_tb [] (_elem b) (_last b) r)
          end
      | LastRoot, fs, Some e =>
          match tail_of e with
          | None => Ok (mk_tb [] fs LastRoot (Some (with_tail e (Some text))))
          | Some _ => Raise (AssertionError "internal error (tail)")
          end
      | l, fs, r => Ok (mk_tb [] fs l r)
      end
  end.

(** [builder.data(s)] *)
Definition data (b : TreeBuilder) (s : string) : TreeBuilder :=
  mk_tb (_data b ++ [s]) (_elem b) (_last b) (_root b).

(** [builder.start(tag, attrs)]: a second element on top level is an
    error. *)
Definition start (b : TreeBuilder) (tag : string) (attrs : dict)
  : result TreeBuilder :=
  b' <- _flush b ;;
  match _elem b', _root b' with
  | [], Some _ => Raise (ParseError "multiple elements on top level")
  | fs, r => Ok (mk_tb [] (mk_frame tag attrs None [] :: fs) LastOpen r)
  end.

(** [builder.end(tag)]: ends the innermost open element; the tag is not
    compared. *)
Definition end_ (b : TreeBuilder) (tag : string) : result TreeBuilder :=
  b' <- _flush b ;;
  match _elem b' with
  | [] => Raise (IndexError "pop from empty stack")
  | f :: fs =>
      match fs with
      | p :: ps =>
          Ok (mk_tb [] (mk_frame (f_tag p) (f_attrib p) (f_text p)
                          (close_frame f :: f_children p) :: ps)
                LastChild (_root b'))
      | [] => Ok (mk_tb [] [] LastRoot (Some (close_frame f)))
      end
  end.

(** The top-level element while elements are still open: each open element
    is the latest child of the one around it. *)
Fixpoint in_progress (e : Element) (fs : list frame) : Element :=
  match fs with
  | [] => e
  | p :: ps =>
      in_progress
        (Elem (f_tag p) (f_attrib p) (f_text p) (rev (e :: f_children p)) None)
        ps
  end.

(** [builder.close()]: the top-level element as it stands, open elements
    included, without flushing.  With nothing started there is no element
    to return (the accelerated builder returns [None], the Python one
    fails this assertion); no method of [ODM] closes a builder before
    starting an element on it. *)
Definition close (b : TreeBuilder) : result Element :=
  match _elem b with
  | f :: fs => Ok (in_progress (close_frame f) fs)
  | [] =>
      match _root b with
      | Some e => Ok e
      | None => Raise (AssertionError "missing toplevel element")
      end
  end.

Definition data_opt (b : TreeBuilder) (x : option string) : TreeBuilder :=
  match x with Some s => data b s | None => b end.

(** What the [build] method of a sub-builder does to the tree builder it is
    given: it renders its element, sub-elements and character data, by
    [start], [data] and [end] calls. *)
Fixpoint emit (e : Element) (b : TreeBuilder) : result TreeBuilder :=
  match e with
  | Elem t a x c y =>
      b1 <- start b t a ;;
      b3 <- (fix emit_all (l : list Element) (b : TreeBuilder) :=
               match l with
               | [] => Ok b
               | k :: l' => b' <- emit k b ;; emit_all l' b'
               end) c (data_opt b1 x) ;;
      b4 <- end_ b3 t ;;
      Ok (data_opt b4 y)
  end.

Fixpoint emit_all (l : list Element) (b : TreeBuilder) : result TreeBuilder :=
  match l with
  | [] => Ok b
  | k :: l' => b' <- emit k b ;; emit_all l' b'
  end.

Definition child_build (c : child) (b : TreeBuilder) : result TreeBuilder :=
  emit (ch_elem c) b.

(** A flushed builder with an open element, once a complete child of that
    element has been rendered and flushed. *)
Definition attach (b : TreeBuilder) (e : Element) : TreeBuilder :=
  match _elem b with
  | f :: fs =>
      mk_tb [] (mk_frame (f_tag f) (f_attrib f) (f_text f)
                  (e :: f_children f) :: fs) LastChild (_root b)
  | [] => b
  end.

End ET.
Import ET.

(** ** The class [ODM] *)

(** The instance attributes assigned by [ODM.__init__], in that order.  The
    three underscore attributes are written by their property setters
    only, which store a [GranularityType] member, a member of
    [VALID_ODM_VERSIONS] and the text returned by [isoformat]. *)
Record ODM := mk_ODM
  { originator : pyval;
    description : pyval;
    creationdatetime : pyval;
    source_system : pyval;
    source_system_version : pyval;
    clinical_data : list child;
    study : option child;
    filetype : string;
    admindata : option child;
    fileoid : pyval;
    _granularity_type : option GranularityType.t;
    _odm_version : string;
    _as_of_datetime : option string }.

Definition FILETYPE_TRANSACTIONAL : string := "Transactional".
Definition FILETYPE_SNAPSHOT : string := "Snapshot".
Definition VALID_ODM_VERSIONS : list string :=
  ["1.2"; "1.2.1"; "1.3"; "1.3.1"; "1.3.2"].

(** *** Methods: state in, state and outcome out *)

Definition M (A : Type) : Type := ODM -> ODM * result A.

#[export] Instance M_Monad : Monad M :=
  {| ret := fun A a self => (self, Ok a);
     bind := fun A B c k self =>
               match c self with
               | (self', Ok a) => k a self'
               | (self', Raise e) => (self', Raise e)
               end |}.

Definition raise {A} (e : exn) : M A := fun self => (self, Raise e).
Definition get : M ODM := fun self => (self, Ok self).
Definition modify (f : ODM -> ODM) : M unit := fun self => (f self, Ok tt).
Definition lift {A} (r : result A) : M A := fun self => (self, r).

(** The state a method leaves and what it returns or raises. *)
Definition state_after {A} (c : M A) (self : ODM) : ODM := fst (c self).
Definition outcome {A} (c : M A) (self : ODM) : result A := snd (c self).

(** Attribute assignment. *)
Definition set_clinical_data (v : list child) (o : ODM) : ODM :=
  mk_ODM (originator o) (description o) (creationdatetime o) (source_system o)
    (source_system_version o) v (study o) (filetype o) (admindata o)
    (fileoid o) (_granularity_type o) (_odm_version o) (_as_of_datetime o).
Definition set_study (v : option child) (o : ODM) : ODM :=
  mk_ODM (originator o) (description o) (creationdatetime o) (source_system o)
    (source_system_version o) (clinical_data o) v (filetype o) (admindata o)
    (fileoid o) (_granularity_type o) (_odm_version o) (_as_of_datetime o).
Definition set_admindata (v : option child) (o : ODM) : ODM :=
  mk_ODM (originator o) (description o) (creationdatetime o) (source_system o)
    (source_system_version o) (clinical_data o) (study o) (filetype o) v
    (fileoid o) (_granularity_type o) (_odm_version o) (_as_of_datetime o).
Definition set__granularity_type (v : option GranularityType.t) (o : ODM) : ODM :=
  mk_ODM (originator o) (description o) (creationdatetime o) (source_system o)
    (source_system_version o) (clinical_data o) (study o) (filetype o)
    (admindata o) (fileoid o) v (_odm_version o) (_as_of_datetime o).
Definition set__odm_version (v : string) (o : ODM) : ODM :=
  mk_ODM (originator o) (description o) (creationdatetime o) (source_system o)
    (source_system_version o) (clinical_data o) (study o) (filetype o)
    (admindata o) (fileoid o) (_granularity_type o) v (_as_of_datetime o).
Definition set__as_of_datetime (v : option string) (o : ODM) : ODM :=
  mk_ODM (originator o) (description o) (creationdatetime o) (source_system o)
    (source_system_version o) (clinical_data o) (study o) (filetype o)
    (admindata o) (fileoid o) (_granularity_type o) (_odm_version o) v.

(** *** Properties *)

(** [value in VALID_ODM_VERSIONS]: equality with one of the strings. *)
Definition eq_str (o : pyobj) (s : string) : bool :=
  match o with
  | PyVal (PyStr s') => String.eqb s' s
  | _ => false
  end.

Definition contains (t : list string) (o : pyobj) : bool :=
  existsb (eq_str o) t.

Definition odm_version : M string :=
  self <- get ;; ret (_odm_version self).

Definition odm_version_setter (value : pyobj) : M unit :=
  if negb (contains VALID_ODM_VERSIONS value) then
    raise (ValueError (MsgPercent "No such supported ODMVersion '%s'" value))
  else
    match value with
    | PyVal (PyStr s) => modify (set__odm_version s)
    | _ => ret tt  (* no other object is equal to a string *)
    end.

Definition as_of_datetime : M (option string) :=
  self <- get ;; ret (_as_of_datetime self).

Definition as_of_datetime_setter (value : pyobj) : M unit :=
  if negb (isinstance_date value) then
    raise (ValueError (Msg "Unexpected format for AsOfDateTime"))
  else
    if isinstance_date value then
      match isoformat value with
      | Some s => modify (set__as_of_datetime (Some s))
      | None => raise (AttributeError "isoformat")
      end
    else ret tt.

Definition granularity_type : M (option GranularityType.t) :=
  self <- get ;; ret (_granularity_type self).

Definition granularity_type_setter (value : pyobj) : M unit :=
  if negb (isinstance_GranularityType value) then
    raise (ValueError
             (MsgFormatType "Should be an instance of GranularityType not {}"
                value))
  else
    match value with
    | PyVal (PyEnum g) => modify (set__granularity_type (Some g))
    | _ => ret tt  (* no other object is an instance *)
    end.

(** *** Child attachment *)

(** The attributes the helpers of [ODMElement] are asked to assign. *)
Inductive list_property := clinical_data_property.
Inductive single_property := study_property | admindata_property.

Definition klass_name (k : klass) : string :=
  match k with
  | ClinicalData => "ClinicalData"
  | Study => "Study"
  | AdminData => "AdminData"
  end.

(** [other in val] for a list of sub-builders, which compare by identity. *)
Definition child_in (c : child) (val : list child) : bool :=
  existsb (fun c' => Nat.eqb (ch_id c') (ch_id c)) val.

(** Modelled from the spec: [ODMElement.set_list_attribute], inherited
    from [rwslib.builders.common] and not defined in [core.py].  "ClinicalData:
    appended to the ordered collection; multiple allowed and preserved in
    the order attached."  A duplicate, the object that is already in the
    collection, is "rejected by construction", as for the single
    attributes.  An object of another class is left alone. *)
Definition set_list_attribute (other : pyobj) (trigger_klass : klass)
    (property_name : list_property) : M unit :=
  match other with
  | PyChild c =>
      if klass_eqb (ch_class c) trigger_klass then
        match property_name with
        | clinical_data_property =>
            self <- get ;;
            if child_in c (clinical_data self) then
              raise (ValueError
                       (Msg (klass_name (ch_class c) ++ " already exists in ODM")))
            else
              modify (fun self => set_clinical_data (clinical_data self ++ [c]) self)
        end
      else ret tt
  | PyVal _ => ret tt
  end.

(** Modelled from the spec: [ODMElement.set_single_attribute], inherited
    from [rwslib.builders.common] and not defined in [core.py].  "The
    Document Root owns at most one Study, at most one Administrative Data
    section"; "duplicates of Study/AdminData are rejected by construction,
    not silently overwritten": the attribute is assigned when it is
    [None], and a second object raises.  An object of another class is
    left alone. *)
Definition set_single_attribute (other : pyobj) (trigger_klass : klass)
    (property_name : single_property) : M unit :=
  match other with
  | PyChild c =>
      if klass_eqb (ch_class c) trigger_klass then
        self <- get ;;
        let current :=
          match property_name with
          | study_property => study self
          | admindata_property => admindata self
          end in
        match current with
        | None =>
            match property_name with
            | study_property => modify (set_study (Some c))
            | admindata_property => modify (set_admindata (Some c))
            end
        | Some _ =>
            raise (ValueError
                     (Msg ("ODM already has a " ++ klass_name (ch_class c)
                             ++ " element set.")))
        end
      else ret tt
  | PyVal _ => ret tt
  end.

(** [ODM.__lshift__]: the [<<] operator. *)
Definition __lshift__ (other : pyobj) : M pyobj :=
  if negb (isinstance_any other [ClinicalData; Study; AdminData]) then
    raise (ValueError
             (Msg "ODM object can only receive ClinicalData, Study or AdminData object"))
  else
    set_list_attribute other ClinicalData clinical_data_property ;;
    set_single_attribute other Study study_property ;;
    set_single_attribute other AdminData admindata_property ;;
    ret other.

(** *** Rendering *)

(** The [for] loop over [self.clinical_data]. *)
Fixpoint build_each (l : list child) (builder : TreeBuilder)
  : result TreeBuilder :=
  match l with
  | [] => Ok builder
  | c :: l' => b <- child_build c builder ;; build_each l' b
  end.

(** The attribute dictionary [params] of the root element. *)
Definition params_of (self : ODM) (version : string)
    (granularity : option GranularityType.t) (as_of : option string) : dict :=
  let params :=
    [ ("ODMVersion", PyStr version);
      ("FileType", PyStr (filetype self));
      ("CreationDateTime", creationdatetime self);
      ("Originator", originator self);
      ("FileOID", fileoid self);
      ("xmlns", PyStr "http://www.cdisc.org/ns/odm/v1.3") ] in
  let params :=
    match granularity with
    | Some g => dict_set params "Granularity" (PyStr (GranularityType.value g))
    | None => params
    end in
  let params :=
    if truthy (source_system self)
    then dict_set params "SourceSystem" (source_system self) else params in
  let params :=
    if truthy (source_system_version self)
    then dict_set params "SourceSystemVersion" (source_system_version self)
    else params in
  let params :=
    dict_set params "xmlns:mdsol" (PyStr "http://www.mdsol.com/ns/odm/metadata") in
  let params :=
    if truthy (description self)
    then dict_set params "Description" (description self) else params in
  let params :=
    match as_of with
    | Some s =>
        if truthy (PyStr s) then dict_set params "AsOfDateTime" (PyStr s)
        else params
    | None => params
    end in
  params.

(** [ODM.build]: renders into [builder]; returns the builder as the calls
    left it and the root element that [builder.close()] returned. *)
Definition build (builder : TreeBuilder) : M (TreeBuilder * Element) :=
  version <- odm_version ;;
  granularity <- granularity_type ;;
  as_of <- as_of_datetime ;;
  self <- get ;;
  let params := params_of self version granularity as_of in
  builder <- lift (start builder "ODM" params) ;;
  builder <- match study self with
             | Some s => lift (child_build s builder)
             | None => ret builder
             end ;;
  builder <- match clinical_data self with
             | [] => ret builder
             | _ :: _ => lift (build_each (clinical_data self) builder)
             end ;;
  builder <- match admindata self with
             | Some a => lift (child_build a builder)
             | None => ret builder
             end ;;
  builder <- lift (end_ builder "ODM") ;;
  root <- lift (close builder) ;;
  ret (builder, root).

(** [ODM.getroot] *)
Definition getroot : M Element :=
  let builder := TreeBuilder_new in
  '(builder, _) <- build builder ;;
  lift (close builder).

(** *** Text serialization *)

Definition quote : string := String "034"%char "".
Definition newline : string := String "010"%char "".

(** The XML declaration: [<?xml version="1.0" encoding="utf-8" ?>] and a
    line feed. *)
Definition header : string :=
  "<?xml version=" ++ quote ++ "1.0" ++ quote
    ++ " encoding=" ++ quote ++ "utf-8" ++ quote ++ " ?>" ++ newline.

Section Serialization.

(** [indent] of [rwslib.builders.common] and [ET.tostring] followed by
    [decode] are taken as they come: the first rewrites the text and tail
    of the elements of the tree it is given, the second writes the tree
    out or raises. *)
Variable indent : Element -> Element.
Variable tostring : Element -> result string.

(** [ODM.__str__] *)
Definition __str__ : M string :=
  doc <- getroot ;;
  let doc := indent doc in
  s <- lift (tostring doc) ;;
  ret (header ++ s)%string.

(** The operations the class defines on an instance. *)
Inductive operation :=
| Lshift (other : pyobj)
| Set_odm_version (value : pyobj)
| Set_as_of_datetime (value : pyobj)
| Set_granularity_type (value : pyobj)
| Get_odm_version
| Get_as_of_datetime
| Get_granularity_type
| Build (builder : TreeBuilder)
| Getroot
| Str.

(** Performing an operation, whatever it returns or raises. *)
Definition perform (op : operation) (self : ODM) : ODM :=
  match op with
  | Lshift other => state_after (__lshift__ other) self
  | Set_odm_version value => state_after (odm_version_setter value) self
  | Set_as_of_datetime value => state_after (as_of_datetime_setter value) self
  | Set_granularity_type value =>
      state_after (granularity_type_setter value) self
  | Get_odm_version => state_after odm_version self
  | Get_as_of_datetime => state_after as_of_datetime self
  | Get_granularity_type => state_after granularity_type self
  | Build builder => state_after (build builder) self
  | Getroot => state_after getroot self
  | Str => state_after __str__ self
  end.

Definition perform_all (ops : list operation) (self : ODM) : ODM :=
  fold_left (fun o op => perform op o) ops self.

End Serialization.

(** *** Construction *)

(** The arguments of [ODM.__init__]. *)
Record init_args := mk_args
  { arg_originator : pyval;
    arg_description : pyval;
    arg_creationdatetime : pyval;
    arg_fileoid : pyval;
    arg_filetype : pyval;
    arg_granularity : pyval;
    arg_source_system : pyval;
    arg_source_system_version : pyval;
    arg_odm_version : pyval;
    arg_as_of_datetime : pyval }.

(** The call [ODM(originator)]: every other argument at its default. *)
Definition default_args (originator : pyval) : init_args :=
  {| arg_originator := originator;
     arg_description := PyStr "";
     arg_creationdatetime := PyNone;
     arg_fileoid := PyNone;
     arg_filetype := PyNone;
     arg_granularity := PyEnum GranularityType.AllClinicalData;
     arg_source_system := PyNone;
     arg_source_system_version := PyNone;
     arg_odm_version := PyNone;
     arg_as_of_datetime := PyNone |}.

(** What the clock and the identifier generator give when asked:
    [now_to_iso8601()] and [str(uuid.uuid4())]. *)
Record environment := mk_env { now_to_iso8601 : string; uuid4 : string }.

(** The attribute assignments of [__init__] before the guarded setters. *)
Definition init_fields (env : environment) (a : init_args) : ODM :=
  {| originator := arg_originator a;
     description := arg_description a;
     creationdatetime :=
       or_else (arg_creationdatetime a) (PyStr (now_to_iso8601 env));
     source_system := arg_source_system a;
     source_system_version := arg_source_system_version a;
     clinical_data := [];
     study := None;
     filetype := if is_None (arg_filetype a) then FILETYPE_TRANSACTIONAL
                 else FILETYPE_SNAPSHOT;
     admindata := None;
     fileoid := if is_None (arg_fileoid a) then PyStr (uuid4 env)
                else arg_fileoid a;
     _granularity_type := None;
     _odm_version := "1.3";
     _as_of_datetime := None |}.

Definition init_setters (a : init_args) : M unit :=
  (if truthy (arg_granularity a)
   then granularity_type_setter (PyVal (arg_granularity a)) else ret tt) ;;
  (if truthy (arg_odm_version a)
   then odm_version_setter (PyVal (arg_odm_version a)) else ret tt) ;;
  (if truthy (arg_as_of_datetime a)
   then as_of_datetime_setter (PyVal (arg_as_of_datetime a)) else ret tt).

(** [ODM.__init__]: the new instance, or the exception a setter raised. *)
Definition __init__ (env : environment) (a : init_args) : result ODM :=
  match init_setters a (init_fields env a) with
  | (self, Ok _) => Ok self
  | (_, Raise e) => Raise e
  end.

(** ** Worked examples *)

Definition sponsor : init_args := default_args (PyStr "SPONSOR").

Definition env0 : environment :=
  mk_env "2026-01-02T03:04:05" "3f0c2a9e-5b7d-4c1e-9a55-0d8e6f1b2c3d".

Definition leaf (tag : string) : Element := Elem tag [] None [] None.

Definition a_study : child := mk_child Study 1 (leaf "Study").
Definition other_study : child :=
  mk_child Study 2
    (Elem "Study" [("OID", PyStr "S2")] None
       [Elem "GlobalVariables" [] (Some "x") [] (Some " ")] None).
Definition cd1 : child := mk_child ClinicalData 3 (leaf "ClinicalData").
Definition cd2 : child :=
  mk_child ClinicalData 4 (Elem "ClinicalData" [("StudyOID", PyStr "S")] None [] None).
Definition cd3 : child :=
  mk_child ClinicalData 5
    (Elem "ClinicalData" [] None [leaf "SubjectData"] None).
Definition an_admin : child := mk_child AdminData 6 (leaf "AdminData").
Definition other_admin : child :=
  mk_child AdminData 7 (Elem "AdminData" [("StudyOID", PyStr "S")] None [] None).

(** A fresh instance with every optional attribute left out. *)
Definition bare : ODM :=
  init_fields env0
    {| arg_originator := PyStr "SPONSOR";
       arg_description := PyStr "";
       arg_creationdatetime := PyNone;
       arg_fileoid := PyNone;
       arg_filetype := PyNone;
       arg_granularity := PyNone;
       arg_source_system := PyNone;
       arg_source_system_version := PyNone;
       arg_odm_version := PyNone;
       arg_as_of_datetime := PyNone |}.

(** ** What rendering is expected to produce *)

Definition to_list {A} (o : option A) : list A :=
  match o with Some a => [a] | None => [] end.

(** The sub-builders of an instance in the order of the ODM schema: the
    study, the clinical data sections as stored, the administrative data. *)
Definition ordered_children (self : ODM) : list child :=
  to_list (study self) ++ clinical_data self ++ to_list (admindata self).

Definition root_attributes (self : ODM) : dict :=
  params_of self (_odm_version self) (_granularity_type self)
    (_as_of_datetime self).

Definition root_element (self : ODM) : Element :=
  Elem "ODM" (root_attributes self) None
    (map ch_elem (ordered_children self)) None.

(** [build] as a computation on the builder alone. *)
Definition build_result (self : ODM) (builder : TreeBuilder)
  : result (TreeBuilder * Element) :=
  b <- start builder "ODM" (root_attributes self) ;;
  b <- match study self with
       | Some s => child_build s b
       | None => Ok b
       end ;;
  b <- build_each (clinical_data self) b ;;
  b <- match admindata self with
       | Some a => child_build a b
       | None => Ok b
       end ;;
  b <- end_ b "ODM" ;;
  root <- close b ;;
  Ok (b, root).


(** ** Vocabulary of the properties *)

(** A method that never changes the instance. *)
Definition read_only {A} (c : M A) : Prop :=
  forall self, state_after c self = self.

(** A method that, from state [self], leaves the state as it is and has
    outcome [r]. *)
Definition runs_to {A} (self : ODM) (c : M A) (r : result A) : Prop :=
  c self = (self, r).

(** [a << b] for each [b] of a list in turn, stopping at the first
    exception; the objects returned. *)
Fixpoint lshift_each (others : list pyobj) : M (list pyobj) :=
  match others with
  | [] => ret []
  | other :: rest =>
      r <- __lshift__ other ;;
      rs <- lshift_each rest ;;
      ret (r :: rs)
  end.

Definition has_class (k : klass) (c : child) : bool := klass_eqb (ch_class c) k.

(** The sub-builder a single attribute holds once the objects of [cs] have
    been received: the one it held [before], else the first of class [k]. *)
Definition first_attached (k : klass) (before : option child) (cs : list child)
  : option child :=
  match before with
  | Some b => Some b
  | None => find (has_class k) cs
  end.

(** The outcome of [__init__] in closed form: the first guarded setter that
    rejects its argument raises, otherwise the instance holds what the
    setters stored. *)
Definition granularity_of (v : pyval) : option GranularityType.t :=
  match v with PyEnum g => Some g | _ => None end.

Definition version_of (v : pyval) : string :=
  match v with
  | PyStr s => if String.eqb s "" then "1.3" else s
  | _ => "1.3"
  end.

Definition init_outcome (env : environment) (a : init_args) : result ODM :=
  let g := arg_granularity a in
  let v := arg_odm_version a in
  let d := arg_as_of_datetime a in
  if truthy g && negb (isinstance_GranularityType (PyVal g)) then
    Raise (ValueError
             (MsgFormatType "Should be an instance of GranularityType not {}"
                (PyVal g)))
  else if truthy v && negb (contains VALID_ODM_VERSIONS (PyVal v)) then
    Raise (ValueError (MsgPercent "No such supported ODMVersion '%s'" (PyVal v)))
  else if truthy d && negb (isinstance_date (PyVal d)) then
    Raise (ValueError (Msg "Unexpected format for AsOfDateTime"))
  else
    Ok (set__as_of_datetime (isoformat (PyVal d))
          (set__odm_version (version_of v)
             (set__granularity_type (granularity_of g) (init_fields env a)))).

(** Arguments that leave every attribute other than the version to a
    value its setter accepts. *)
Definition other_args_valid (a : init_args) : bool :=
  (negb (truthy (arg_granularity a))
   || isinstance_GranularityType (PyVal (arg_granularity a)))
  && (negb (truthy (arg_as_of_datetime a))
      || isinstance_date (PyVal (arg_as_of_datetime a))).

Definition with_odm_version (a : init_args) (v : pyval) : init_args :=
  mk_args (arg_originator a) (arg_description a) (arg_creationdatetime a)
    (arg_fileoid a) (arg_filetype a) (arg_granularity a) (arg_source_system a)
    (arg_source_system_version a) v (arg_as_of_datetime a).

(** Attributes of a rendered element. *)
Definition attribute (e : Element) (k : string) : option pyval :=
  dict_get (attrib_of e) k.
Definition present (e : Element) (k : string) : bool :=
  dict_has (attrib_of e) k.

Definition is_set {A} (o : option A) : bool :=
  match o with Some _ => true | None => false end.

(** The truth value of the stored as-of timestamp. *)
Definition as_of_set (self : ODM) : bool :=
  match _as_of_datetime self with
  | Some s => truthy (PyStr s)
  | None => false
  end.

(** What receiving a sub-builder does to the instance. *)
Definition received (c : child) (self : ODM) : ODM :=
  match ch_class c with
  | ClinicalData => set_clinical_data (clinical_data self ++ [c]) self
  | Study => set_study (Some c) self
  | AdminData => set_admindata (Some c) self
  end.

Definition acceptable (other : pyobj) : bool :=
  isinstance_any other [ClinicalData; Study; AdminData].

(** Whether the instance can take a sub-builder: a clinical data section
    that is not in the collection yet, a study or administrative data
    when there is none. *)
Definition can_receive (c : child) (self : ODM) : bool :=
  match ch_class c with
  | ClinicalData => negb (child_in c (clinical_data self))
  | Study => negb (is_set (study self))
  | AdminData => negb (is_set (admindata self))
  end.

(** What a successful [<<] of [c] has done: [self'] holds [c] in the
    attribute for its class and everything else of [self] it had. *)
Definition attached (c : child) (self self' : ODM) : Prop :=
  match ch_class c with
  | ClinicalData =>
      clinical_data self' = clinical_data self ++ [c]
      /\ study self' = study self /\ admindata self' = admindata self
  | Study =>
      study self' = Some c
      /\ clinical_data self' = clinical_data self
      /\ admindata self' = admindata self
  | AdminData =>
      admindata self' = Some c
      /\ clinical_data self' = clinical_data self
      /\ study self' = study self
  end.

(** The text of the error for a sub-builder the instance cannot take. *)
Definition refusal (c : child) : message :=
  match ch_class c with
  | ClinicalData => Msg (klass_name (ch_class c) ++ " already exists in ODM")
  | _ => Msg ("ODM already has a " ++ klass_name (ch_class c) ++ " element set.")
  end.

(** Distinct objects, none of them in the collection yet. *)
Fixpoint all_new (cs : list child) (val : list child) : bool :=
  match cs with
  | [] => true
  | c :: cs' => negb (child_in c val) && all_new cs' (val ++ [c])
  end.

Definition with_filetype (a : init_args) (v : pyval) : init_args :=
  mk_args (arg_originator a) (arg_description a) (arg_creationdatetime a)
    (arg_fileoid a) v (arg_granularity a) (arg_source_system a)
    (arg_source_system_version a) (arg_odm_version a) (arg_as_of_datetime a).

Definition with_granularity (a : init_args) (v : pyval) : init_args :=
  mk_args (arg_originator a) (arg_description a) (arg_creationdatetime a)
    (arg_fileoid a) (arg_filetype a) v (arg_source_system a)
    (arg_source_system_version a) (arg_odm_version a) (arg_as_of_datetime a).

(** A call that passes every argument, then receives sub-builders out of
    schema order. *)
Definition full_args : init_args :=
  {| arg_originator := PyStr "SPONSOR";
     arg_description := PyStr "Nightly export";
     arg_creationdatetime := PyStr "2025-06-01T00:00:00";
     arg_fileoid := PyStr "F-001";
     arg_filetype := PyStr "Snapshot";
     arg_granularity := PyEnum GranularityType.SingleSubject;
     arg_source_system := PyStr "EDC";
     arg_source_system_version := PyStr "2.1";
     arg_odm_version := PyStr "1.3.2";
     arg_as_of_datetime := PyDate (mk_date 2025 5 31) |}.

Definition populated : ODM :=
  match __init__ env0 full_args with
  | Ok self =>
      state_after
        (lshift_each
           [PyChild an_admin; PyChild cd1; PyChild a_study; PyChild cd2])
        self
  | Raise _ => bare
  end.

(** Stand-ins for [indent] and [tostring] in the examples. *)
Definition no_indent (e : Element) : Element := e.
Definition tag_only (e : Element) : result string :=
  Ok ("<" ++ tag_of e ++ " />")%string.


(** ** Vocabulary of the further properties *)

Definition with_as_of_datetime (a : init_args) (v : pyval) : init_args :=
  mk_args (arg_originator a) (arg_description a) (arg_creationdatetime a)
    (arg_fileoid a) (arg_filetype a) (arg_granularity a) (arg_source_system a)
    (arg_source_system_version a) (arg_odm_version a) v.

Definition with_creationdatetime (a : init_args) (v : pyval) : init_args :=
  mk_args (arg_originator a) (arg_description a) v
    (arg_fileoid a) (arg_filetype a) (arg_granularity a) (arg_source_system a)
    (arg_source_system_version a) (arg_odm_version a) (arg_as_of_datetime a).

Definition with_fileoid (a : init_args) (v : pyval) : init_args :=
  mk_args (arg_originator a) (arg_description a) (arg_creationdatetime a)
    v (arg_filetype a) (arg_granularity a) (arg_source_system a)
    (arg_source_system_version a) (arg_odm_version a) (arg_as_of_datetime a).

(** An argument its guarded setter never sees, or accepts. *)
Definition granularity_arg_valid (a : init_args) : bool :=
  negb (truthy (arg_granularity a))
  || isinstance_GranularityType (PyVal (arg_granularity a)).

Definition version_arg_valid (a : init_args) : bool :=
  negb (truthy (arg_odm_version a))
  || contains VALID_ODM_VERSIONS (PyVal (arg_odm_version a)).

Definition as_of_arg_valid (a : init_args) : bool :=
  negb (truthy (arg_as_of_datetime a))
  || isinstance_date (PyVal (arg_as_of_datetime a)).

(** The attribute names of the root in the order [build] fills [params]. *)
Definition optional_key (c : bool) (k : string) : list string :=
  if c then [k] else [].

Definition expected_keys (self : ODM) : list string :=
  ["ODMVersion"; "FileType"; "CreationDateTime"; "Originator"; "FileOID"; "xmlns"]
    ++ optional_key (is_set (_granularity_type self)) "Granularity"
    ++ optional_key (truthy (source_system self)) "SourceSystem"
    ++ optional_key (truthy (source_system_version self)) "SourceSystemVersion"
    ++ ["xmlns:mdsol"]
    ++ optional_key (truthy (description self)) "Description"
    ++ optional_key (as_of_set self) "AsOfDateTime".

(** What construction and the setters maintain: the version is one of the
    allow-list and a stored as-of text is not empty. *)
Definition well_formed (self : ODM) : Prop :=
  In (_odm_version self) VALID_ODM_VERSIONS
  /\ (forall s, _as_of_datetime self = Some s -> truthy (PyStr s) = true).

Definition is_Lshift (op : operation) : bool :=
  match op with Lshift _ => true | _ => false end.

(** * Properties *)

Unset Implicit Arguments.

(** ** The tree builder *)

Section TreeBuilder_facts.

Lemma emit_unfold t a x c y b :
  emit (Elem t a x c y) b =
  (b1 <- start b t a ;;
   b3 <- emit_all c (data_opt b1 x) ;;
   b4 <- end_ b3 t ;;
   Ok (data_opt b4 y)).
Proof. reflexivity. Qed.

(** A flushed builder holds no pending data, and flushing again changes
    nothing. *)
Lemma _flush_data b b0 : _flush b = Ok b0 -> _data b0 = [].
Proof.
  unfold _flush. destruct (_data b) eqn:D.
  - intros H; injection H as <-; exact D.
  - destruct (_last b), (_elem b) as [|f fs], (_root b) as [r|];
      repeat match goal with
        | |- context [match ?u with _ => _ end] => destruct u
        end;
      intros H; try discriminate; injection H as <-; reflexivity.
Qed.

Lemma _flush_no_data b : _data b = [] -> _flush b = Ok b.
Proof. unfold _flush; intros ->; reflexivity. Qed.

Lemma _flush_elem b b0 :
  _flush b = Ok b0 -> length (_elem b0) = length (_elem b).
Proof.
  unfold _flush. destruct (_data b) eqn:D.
  - intros H; injection H as <-; reflexivity.
  - destruct (_last b), (_elem b) as [|f fs], (_root b) as [r|];
      repeat match goal with
        | |- context [match ?u with _ => _ end] => destruct u
        end;
      intros H; try discriminate; injection H as <-; reflexivity.
Qed.

(** [start] and [end] begin by flushing. *)
Lemma start_flushed b b0 t a : _flush b = Ok b0 -> start b t a = start b0 t a.
Proof.
  intros H. unfold start. rewrite H.
  rewrite (_flush_no_data _ (_flush_data _ _ H)). reflexivity.
Qed.

Lemma end_flushed b b0 t : _flush b = Ok b0 -> end_ b t = end_ b0 t.
Proof.
  intros H. unfold end_. rewrite H.
  rewrite (_flush_no_data _ (_flush_data _ _ H)). reflexivity.
Qed.

End TreeBuilder_facts.


Lemma attach_flushed b e : _data b = [] -> _flush (attach b e) = Ok (attach b e).
Proof.
  intros D. apply _flush_no_data. unfold attach.
  destruct (_elem b); [exact D | reflexivity].
Qed.

Lemma attach_elem b e : _elem b <> [] -> _elem (attach b e) <> [].
Proof.
  unfold attach. destruct (_elem b); [congruence | discriminate].
Qed.

Lemma attach_all_frame t a x ks fs l r c :
  fold_left attach c (mk_tb [] (mk_frame t a x ks :: fs) l r)
  = mk_tb [] (mk_frame t a x (rev c ++ ks) :: fs)
      (match c with [] => l | _ :: _ => LastChild end) r.
Proof.
  revert ks l. induction c as [|k c IH]; intros ks l; [reflexivity|].
  simpl fold_left. unfold attach at 2. simpl.
  rewrite IH. rewrite <- app_assoc. simpl.
  destruct c; reflexivity.
Qed.

(** Rendering an element under an open element adds it, text, children and
    tail, as the latest child of that element. *)
Lemma emit_attach e :
  forall b b0, _elem b <> [] -> _flush b = Ok b0 ->
  exists b', emit e b = Ok b' /\ _flush b' = Ok (attach b0 e) /\ _elem b' <> [].
Proof.
  induction e as [t a x c y IH] using Element_ind'.
  intros b b0 Hne Hf.
  assert (Hall : forall l, Forall (fun e => forall b b0, _elem b <> [] -> _flush b = Ok b0 ->
              exists b', emit e b = Ok b' /\ _flush b' = Ok (attach b0 e) /\ _elem b' <> []) l ->
            forall b b0, _elem b <> [] -> _flush b = Ok b0 ->
            exists b', emit_all l b = Ok b' /\ _flush b' = Ok (fold_left attach l b0)
                       /\ _elem b' <> []).
  { induction 1 as [|k l Hk _ IHl]; intros b1 b2 Hne1 Hf1.
    - exists b1; repeat split; assumption.
    - destruct (Hk b1 b2 Hne1 Hf1) as (b3 & E3 & F3 & N3).
      destruct (IHl b3 _ N3 F3) as (b4 & E4 & F4 & N4).
      exists b4; repeat split; try assumption.
      simpl. rewrite E3. exact E4. }
  specialize (Hall c IH).
  pose proof (_flush_data _ _ Hf) as D0.
  pose proof (_flush_elem _ _ Hf) as L0.
  destruct (_elem b0) as [|p ps] eqn:E0.
  { destruct (_elem b); [congruence | discriminate]. }
  rewrite emit_unfold, (start_flushed _ _ _ _ Hf).
  unfold start at 1. rewrite (_flush_no_data _ D0). simpl bind. rewrite E0.
  set (b1 := mk_tb [] (mk_frame t a None [] :: p :: ps) LastOpen (_root b0)).
  assert (F2 : _flush (data_opt b1 x)
               = Ok (mk_tb [] (mk_frame t a x [] :: p :: ps) LastOpen (_root b0))).
  { destruct x as [s|]; reflexivity. }
  destruct (Hall (data_opt b1 x) _ ltac:(destruct x; discriminate) F2)
    as (b3 & E3 & F3 & N3).
  rewrite E3. rewrite attach_all_frame in F3. rewrite app_nil_r in F3.
  rewrite (end_flushed _ _ _ F3). unfold end_ at 1.
  rewrite _flush_no_data by reflexivity. simpl.
  unfold close_frame; simpl. rewrite rev_involutive.
  eexists; split; [reflexivity|]. split.
  - unfold attach. rewrite E0. destruct b0 as [d0 el0 l0 r0]; simpl in *.
    destruct y as [s|]; reflexivity.
  - destruct y; discriminate.
Qed.

Lemma build_each_attach l :
  forall b b0, _elem b <> [] -> _flush b = Ok b0 ->
  exists b', build_each l b = Ok b'
             /\ _flush b' = Ok (fold_left attach (map ch_elem l) b0)
             /\ _elem b' <> [].
Proof.
  induction l as [|c l IH]; intros b b0 Hne Hf.
  - exists b; repeat split; assumption.
  - destruct (emit_attach (ch_elem c) b b0 Hne Hf) as (b1 & E1 & F1 & N1).
    destruct (IH b1 _ N1 F1) as (b2 & E2 & F2 & N2).
    exists b2; repeat split; try assumption.
    simpl. unfold child_build. rewrite E1. exact E2.
Qed.

(** ** Methods that only read *)


Lemma read_only_ret A (a : A) : read_only (ret a).
Proof. intro; reflexivity. Qed.

Lemma read_only_lift A (r : result A) : read_only (lift r).
Proof. intro; reflexivity. Qed.

Lemma read_only_raise A e : read_only (@raise A e).
Proof. intro; reflexivity. Qed.

Lemma read_only_get : read_only get.
Proof. intro; reflexivity. Qed.

Lemma read_only_bind A B (c : M A) (k : A -> M B) :
  read_only c -> (forall a, read_only (k a)) -> read_only (bind c k).
Proof.
  intros Hc Hk self. unfold state_after. simpl.
  specialize (Hc self). unfold state_after in Hc.
  destruct (c self) as [self' [a|e]]; simpl in *; subst self'.
  - apply Hk.
  - reflexivity.
Qed.

Ltac read_only_tac :=
  repeat first
    [ apply read_only_bind; [|intro]
    | apply read_only_ret | apply read_only_lift
    | apply read_only_raise | apply read_only_get
    | match goal with
      | |- read_only (match ?x with _ => _ end) => destruct x
      | |- read_only (let _ := _ in _) => cbv zeta
      end ].

Lemma read_only_build builder : read_only (build builder).
Proof. unfold build, odm_version, granularity_type, as_of_datetime. read_only_tac. Qed.

Lemma read_only_getroot : read_only getroot.
Proof.
  unfold getroot. apply read_only_bind; [apply read_only_build|].
  intros [b e]. apply read_only_lift.
Qed.

Lemma read_only___str__ indent tostring : read_only (__str__ indent tostring).
Proof.
  unfold __str__. apply read_only_bind; [apply read_only_getroot|].
  intro. read_only_tac.
Qed.

(** ** The rendered tree *)


Lemma runs_to_ret A self (a : A) : runs_to self (ret a) (Ok a).
Proof. reflexivity. Qed.

Lemma runs_to_lift A self (r : result A) : runs_to self (lift r) r.
Proof. reflexivity. Qed.

Lemma runs_to_get self : runs_to self get (Ok self).
Proof. reflexivity. Qed.

Lemma runs_to_bind A B self (c : M A) (k : A -> M B) r f :
  runs_to self c r -> (forall a, runs_to self (k a) (f a)) ->
  runs_to self (bind c k) (bind r f).
Proof.
  unfold runs_to. intros Hc Hk. cbn. rewrite Hc.
  destruct r as [a|e]; [apply Hk | reflexivity].
Qed.

Lemma build_unfold builder self :
  build builder self = (self, build_result self builder).
Proof.
  change (runs_to self (build builder) (build_result self builder)).
  unfold build, odm_version, granularity_type, as_of_datetime.
  assert (G : forall A (c : M A) r r', runs_to self c r -> r = r' -> runs_to self c r')
    by (intros; subst; assumption).
  eapply G.
  - eapply runs_to_bind; [eapply runs_to_bind; [apply runs_to_get | intro; apply runs_to_ret] |].
    intro version.
    eapply runs_to_bind; [eapply runs_to_bind; [apply runs_to_get | intro; apply runs_to_ret] |].
    intro granularity.
    eapply runs_to_bind; [eapply runs_to_bind; [apply runs_to_get | intro; apply runs_to_ret] |].
    intro as_of.
    eapply runs_to_bind; [apply runs_to_get|]. intro self0.
    eapply runs_to_bind; [apply runs_to_lift|]. intro b1.
    eapply runs_to_bind.
    { instantiate (1 := match study self0 with
                        | Some s => child_build s b1 | None => Ok b1 end).
      destruct (study self0); [apply runs_to_lift | apply runs_to_ret]. }
    intro b2.
    eapply runs_to_bind.
    { instantiate (1 := build_each (clinical_data self0) b2).
      destruct (clinical_data self0); [apply runs_to_ret | apply runs_to_lift]. }
    intro b3.
    eapply runs_to_bind.
    { instantiate (1 := match admindata self0 with
                        | Some s => child_build s b3 | None => Ok b3 end).
      destruct (admindata self0); [apply runs_to_lift | apply runs_to_ret]. }
    intro b4.
    eapply runs_to_bind; [apply runs_to_lift|]. intro b5.
    eapply runs_to_bind; [apply runs_to_lift|]. intro root.
    apply runs_to_ret.
  - reflexivity.
Qed.

Lemma build_new self :
  build TreeBuilder_new self
  = (self, Ok (mk_tb [] [] LastRoot (Some (root_element self)), root_element self)).
Proof.
  rewrite build_unfold. f_equal. unfold build_result.
  set (params := root_attributes self).
  set (b1 := mk_tb [] [mk_frame "ODM" params None []] LastOpen None).
  change (start TreeBuilder_new "ODM" params) with (Ok b1).
  cbn [bind result_Monad].
  assert (S1 : exists b', match study self with
                          | Some s => child_build s b1
                          | None => Ok b1
                          end = Ok b'
               /\ _flush b' = Ok (fold_left attach (map ch_elem (to_list (study self))) b1)
               /\ _elem b' <> []).
  { destruct (study self) as [s|]; simpl.
    - apply emit_attach; [discriminate | reflexivity].
    - exists b1; repeat split; discriminate. }
  destruct S1 as (b2 & E2 & F2 & N2). rewrite E2.
  destruct (build_each_attach (clinical_data self) b2 _ N2 F2) as (b3 & E3 & F3 & N3).
  rewrite E3.
  assert (S4 : exists b', match admindata self with
                          | Some s => child_build s b3
                          | None => Ok b3
                          end = Ok b'
               /\ _flush b' = Ok (fold_left attach (map ch_elem (ordered_children self)) b1)
               /\ _elem b' <> []).
  { unfold ordered_children. rewrite !map_app, !fold_left_app.
    destruct (admindata self) as [s|]; simpl.
    - apply emit_attach; assumption.
    - exists b3; repeat split; assumption. }
  destruct S4 as (b4 & E4 & F4 & N4). rewrite E4.
  unfold b1 in F4. rewrite attach_all_frame, app_nil_r in F4.
  rewrite (end_flushed _ _ "ODM" F4).
  unfold end_. rewrite _flush_no_data by reflexivity.
  cbn. unfold close_frame. cbn. rewrite rev_involutive. reflexivity.
Qed.

Lemma getroot_root_element self : getroot self = (self, Ok (root_element self)).
Proof.
  unfold getroot. cbn [bind M_Monad]. rewrite build_new. reflexivity.
Qed.

(** ** Construction in closed form *)

Lemma init_granularity_step g self :
  (if truthy g then granularity_type_setter (PyVal g) else ret tt) self
  = if truthy g && negb (isinstance_GranularityType (PyVal g))
    then (self, Raise (ValueError
                         (MsgFormatType
                            "Should be an instance of GranularityType not {}"
                            (PyVal g))))
    else (match granularity_of g with
          | Some x => set__granularity_type (Some x) self
          | None => self
          end, Ok tt).
Proof.
  destruct g; cbn; try reflexivity;
    match goal with |- context [if ?c then _ else _] => destruct c end;
    reflexivity.
Qed.

Lemma init_version_step v self :
  (if truthy v then odm_version_setter (PyVal v) else ret tt) self
  = if truthy v && negb (contains VALID_ODM_VERSIONS (PyVal v))
    then (self, Raise (ValueError
                         (MsgPercent "No such supported ODMVersion '%s'" (PyVal v))))
    else (match v with
          | PyStr s => if String.eqb s "" then self else set__odm_version s self
          | _ => self
          end, Ok tt).
Proof.
  destruct v as [| b | z | s | dd | dt | e];
    try (cbn; try reflexivity;
         match goal with |- context [if ?c then _ else _] => destruct c end;
         reflexivity).
  unfold truthy, odm_version_setter.
  destruct (String.eqb s ""), (contains VALID_ODM_VERSIONS (PyVal (PyStr s)));
    reflexivity.
Qed.

Lemma init_as_of_step d self :
  (if truthy d then as_of_datetime_setter (PyVal d) else ret tt) self
  = if truthy d && negb (isinstance_date (PyVal d))
    then (self, Raise (ValueError (Msg "Unexpected format for AsOfDateTime")))
    else (match isoformat (PyVal d) with
          | Some s => set__as_of_datetime (Some s) self
          | None => self
          end, Ok tt).
Proof.
  destruct d; cbn; try reflexivity;
    match goal with |- context [if ?c then _ else _] => destruct c end;
    reflexivity.
Qed.

Lemma __init___outcome env a : __init__ env a = init_outcome env a.
Proof.
  unfold __init__, init_outcome, init_setters.
  cbn [bind M_Monad].
  rewrite init_granularity_step.
  destruct (truthy (arg_granularity a)
            && negb (isinstance_GranularityType (PyVal (arg_granularity a)))) eqn:Eg;
    [reflexivity|].
  rewrite init_version_step.
  destruct (truthy (arg_odm_version a)
            && negb (contains VALID_ODM_VERSIONS (PyVal (arg_odm_version a)))) eqn:Ev;
    [reflexivity|].
  rewrite init_as_of_step.
  destruct (truthy (arg_as_of_datetime a)
            && negb (isinstance_date (PyVal (arg_as_of_datetime a)))) eqn:Ed;
    [reflexivity|].
  clear Eg Ev Ed. f_equal.
  destruct (granularity_of (arg_granularity a)),
    (isoformat (PyVal (arg_as_of_datetime a))),
    (arg_odm_version a) as [| b | z | ver | dd | dt | e];
    try reflexivity;
    cbn [version_of]; destruct (String.eqb ver ""); reflexivity.
Qed.

(** ** The root element and its attributes *)

Lemma dict_get_set d k v k' :
  dict_get (dict_set d k v) k'
  = if String.eqb k k' then Some v else dict_get d k'.
Proof.
  induction d as [|[k0 v0] d IH]; cbn.
  - reflexivity.
  - destruct (String.eqb k0 k) eqn:E0; cbn.
    + apply String.eqb_eq in E0; subst k0.
      destruct (String.eqb k k'); reflexivity.
    + rewrite IH. destruct (String.eqb k0 k') eqn:E1; [|reflexivity].
      apply String.eqb_eq in E1; subst k0.
      rewrite String.eqb_sym, E0. reflexivity.
Qed.

Lemma dict_get_set_if (c : bool) d k v k' :
  dict_get (if c then dict_set d k v else d) k'
  = if c && String.eqb k k' then Some v else dict_get d k'.
Proof. destruct c; [apply dict_get_set | reflexivity]. Qed.

(** Looking a key up in the attribute dictionary of the root. *)
Lemma root_attributes_get self k :
  dict_get (root_attributes self) k
  = if as_of_set self && String.eqb "AsOfDateTime" k
    then option_map PyStr (_as_of_datetime self)
    else if truthy (description self) && String.eqb "Description" k
    then Some (description self)
    else if String.eqb "xmlns:mdsol" k
    then Some (PyStr "http://www.mdsol.com/ns/odm/metadata")
    else if truthy (source_system_version self)
            && String.eqb "SourceSystemVersion" k
    then Some (source_system_version self)
    else if truthy (source_system self) && String.eqb "SourceSystem" k
    then Some (source_system self)
    else if is_set (_granularity_type self) && String.eqb "Granularity" k
    then option_map (fun g => PyStr (GranularityType.value g))
           (_granularity_type self)
    else dict_get
           [ ("ODMVersion", PyStr (_odm_version self));
             ("FileType", PyStr (filetype self));
             ("CreationDateTime", creationdatetime self);
             ("Originator", originator self);
             ("FileOID", fileoid self);
             ("xmlns", PyStr "http://www.cdisc.org/ns/odm/v1.3") ] k.
Proof.
  unfold root_attributes, params_of, as_of_set. cbv zeta.
  set (base := [ ("ODMVersion", _); _; _; _; _; _ ]).
  assert (E : forall d, dict_get
              match _as_of_datetime self with
              | Some s => if truthy (PyStr s)
                          then dict_set d "AsOfDateTime" (PyStr s) else d
              | None => d
              end k
            = if match _as_of_datetime self with
                 | Some s => truthy (PyStr s) | None => false end
                 && String.eqb "AsOfDateTime" k
              then option_map PyStr (_as_of_datetime self)
              else dict_get d k).
  { intro d. destruct (_as_of_datetime self) as [s|]; [|reflexivity].
    apply dict_get_set_if. }
  rewrite E. clear E.
  rewrite dict_get_set_if, dict_get_set, !dict_get_set_if.
  destruct (_granularity_type self) as [g|]; cbn [is_set option_map andb];
    [rewrite dict_get_set|]; reflexivity.
Qed.

Ltac root_attribute :=
  unfold attribute, present, dict_has; cbn [attrib_of root_element];
  rewrite root_attributes_get;
  cbn [String.eqb Ascii.eqb Bool.eqb andb dict_get];
  rewrite ?andb_false_r, ?andb_true_r.

(** C1: the rendered root element is named ODM and always carries FileOID,
    ODMVersion, FileType, CreationDateTime, Originator, the default
    namespace declaration and the vendor namespace declaration, each with
    the value the instance holds; Description, Granularity, SourceSystem,
    SourceSystemVersion and AsOfDateTime are present exactly when the
    corresponding attribute of the instance is set and not empty. *)
Theorem C1_root_attributes self :
  exists root,
    outcome getroot self = Ok root /\ tag_of root = "ODM" /\
    attribute root "FileOID" = Some (fileoid self) /\
    attribute root "ODMVersion" = Some (PyStr (_odm_version self)) /\
    attribute root "FileType" = Some (PyStr (filetype self)) /\
    attribute root "CreationDateTime" = Some (creationdatetime self) /\
    attribute root "Originator" = Some (originator self) /\
    attribute root "xmlns" = Some (PyStr "http://www.cdisc.org/ns/odm/v1.3") /\
    attribute root "xmlns:mdsol"
      = Some (PyStr "http://www.mdsol.com/ns/odm/metadata") /\
    present root "Description" = truthy (description self) /\
    present root "Granularity" = is_set (_granularity_type self) /\
    present root "SourceSystem" = truthy (source_system self) /\
    present root "SourceSystemVersion" = truthy (source_system_version self) /\
    present root "AsOfDateTime" = as_of_set self.
Proof.
  exists (root_element self). unfold outcome.
  rewrite getroot_root_element. split; [reflexivity|]. split; [reflexivity|].
  repeat split; root_attribute; try reflexivity.
  - destruct (truthy (description self)); reflexivity.
  - destruct (_granularity_type self); reflexivity.
  - destruct (truthy (source_system self)); reflexivity.
  - destruct (truthy (source_system_version self)); reflexivity.
  - unfold as_of_set. destruct (_as_of_datetime self) as [s|]; [|reflexivity].
    cbn. destruct (String.eqb s ""); reflexivity.
Qed.

(** Where an optional attribute is present its value is the one the
    instance holds. *)
Lemma root_optional_values self :
  let root := root_element self in
  attribute root "Description"
    = (if truthy (description self) then Some (description self) else None) /\
  attribute root "Granularity"
    = option_map (fun g => PyStr (GranularityType.value g)) (_granularity_type self) /\
  attribute root "SourceSystem"
    = (if truthy (source_system self) then Some (source_system self) else None) /\
  attribute root "SourceSystemVersion"
    = (if truthy (source_system_version self)
       then Some (source_system_version self) else None) /\
  attribute root "AsOfDateTime"
    = (if as_of_set self then option_map PyStr (_as_of_datetime self) else None).
Proof.
  cbv zeta. repeat split; root_attribute; try reflexivity.
  destruct (_granularity_type self); reflexivity.
Qed.

(** ** Child attachment *)

Lemma acceptable_child c : acceptable (PyChild c) = true.
Proof. unfold acceptable; cbn. destruct (ch_class c); reflexivity. Qed.

Lemma acceptable_val v : acceptable (PyVal v) = false.
Proof. reflexivity. Qed.

Lemma acceptable_is_child other :
  acceptable other = true -> exists c, other = PyChild c.
Proof. destruct other as [v|c]; [discriminate | intros _; exists c; reflexivity]. Qed.

(** [<<] of a sub-builder: received when the instance can take it, refused
    with the instance as it was otherwise. *)
Lemma __lshift___child c self :
  __lshift__ (PyChild c) self
  = if can_receive c self then (received c self, Ok (PyChild c))
    else (self, Raise (ValueError (refusal c))).
Proof.
  unfold __lshift__. fold (acceptable (PyChild c)). rewrite acceptable_child.
  unfold can_receive, received, refusal, set_list_attribute,
    set_single_attribute.
  destruct (ch_class c); cbn.
  - destruct (child_in c (clinical_data self)); reflexivity.
  - destruct (study self); reflexivity.
  - destruct (admindata self); reflexivity.
Qed.

Lemma received_attached c self : attached c self (received c self).
Proof. unfold attached, received. destruct (ch_class c); repeat split. Qed.

(** A run of [<<] calls that all succeed. *)
Lemma lshift_each_ok cs :
  forall self rs,
    outcome (lshift_each (map PyChild cs)) self = Ok rs ->
    let self' := state_after (lshift_each (map PyChild cs)) self in
    rs = map PyChild cs
    /\ study self' = first_attached Study (study self) cs
    /\ clinical_data self'
       = clinical_data self ++ filter (has_class ClinicalData) cs
    /\ admindata self' = first_attached AdminData (admindata self) cs.
Proof.
  induction cs as [|c cs IH]; intros self rs H; cbv zeta.
  - cbn in H. injection H as <-. cbn. rewrite app_nil_r.
    unfold first_attached. destruct (study self), (admindata self); repeat split.
  - unfold outcome, state_after in *. cbn [map lshift_each bind M_Monad] in *.
    rewrite __lshift___child in *.
    destruct (can_receive c self) eqn:R; [|discriminate].
    destruct (lshift_each (map PyChild cs) (received c self)) as [s' [rs'|e]] eqn:E;
      [|discriminate].
    cbn [ret M_Monad fst snd] in *. injection H as <-.
    specialize (IH (received c self) rs').
    unfold outcome, state_after in IH. rewrite E in IH. cbn [fst snd] in IH.
    destruct (IH eq_refl) as (-> & Hs & Hc & Ha).
    split; [reflexivity|]. rewrite Hs, Hc, Ha.
    unfold can_receive in R. unfold received, first_attached, has_class.
    cbn [find filter].
    destruct (ch_class c); cbn [klass_eqb study clinical_data admindata
      set_clinical_data set_study set_admindata].
    + rewrite <- app_assoc. repeat split.
    + destruct (study self); [discriminate|]. repeat split.
    + destruct (admindata self); [discriminate|]. repeat split.
Qed.

(** C2: whatever the order in which sub-builders were received, the children
    of the rendered root are the study (if any), then the clinical data
    sections in the order they were received, then the administrative data
    (if any). *)
Theorem C2_children_order :
  (forall self,
     exists root,
       outcome getroot self = Ok root /\
       children_of root
       = map ch_elem (to_list (study self) ++ clinical_data self
                        ++ to_list (admindata self)))
  /\
  (forall self cs rs,
     outcome (lshift_each (map PyChild cs)) self = Ok rs ->
     exists root,
       outcome getroot (state_after (lshift_each (map PyChild cs)) self) = Ok root /\
       children_of root
       = map ch_elem
           (to_list (first_attached Study (study self) cs)
              ++ (clinical_data self ++ filter (has_class ClinicalData) cs)
              ++ to_list (first_attached AdminData (admindata self) cs))).
Proof.
  split.
  - intro self. exists (root_element self). unfold outcome.
    rewrite getroot_root_element. split; reflexivity.
  - intros self cs rs H.
    destruct (lshift_each_ok cs self rs H) as (_ & Hs & Hc & Ha).
    eexists. unfold outcome at 1. rewrite getroot_root_element.
    split; [reflexivity|].
    cbn [children_of root_element]. unfold ordered_children.
    rewrite Hs, Hc, Ha. reflexivity.
Qed.

Lemma C2_children_order_witness :
  outcome (lshift_each (map PyChild [an_admin; cd1; a_study; cd2])) bare
  = Ok (map PyChild [an_admin; cd1; a_study; cd2])
  /\ exists root,
       outcome getroot
         (state_after (lshift_each (map PyChild [an_admin; cd1; a_study; cd2])) bare)
       = Ok root
       /\ children_of root = map ch_elem [a_study; cd1; cd2; an_admin].
Proof.
  split; [reflexivity|].
  exact (proj2 C2_children_order bare [an_admin; cd1; a_study; cd2] _ eq_refl).
Defined.

(** C5 (amended): [<<] raises the error naming ClinicalData, Study and
    AdminData for every object that is none of the three, leaving the
    instance as it was; a sub-builder the instance can take (a clinical
    data section not yet in the collection, a study or administrative
    data when none is attached) is attached and returned; any other
    sub-builder is refused with an error, the instance staying as it
    was. *)
Theorem C5_lshift_type_check other self :
  (acceptable other = false ->
     __lshift__ other self
     = (self,
        Raise (ValueError
                 (Msg "ODM object can only receive ClinicalData, Study or AdminData object"))))
  /\
  (acceptable other = true ->
     exists c,
       other = PyChild c
       /\ if can_receive c self
          then outcome (__lshift__ other) self = Ok other
               /\ attached c self (state_after (__lshift__ other) self)
          else exists m, __lshift__ other self = (self, Raise (ValueError m))).
Proof.
  split; intro H.
  - unfold __lshift__. fold (acceptable other). rewrite H. reflexivity.
  - destruct (acceptable_is_child other H) as [c ->]. exists c.
    split; [reflexivity|]. unfold outcome, state_after.
    rewrite __lshift___child. destruct (can_receive c self).
    + split; [reflexivity | apply received_attached].
    + eexists; reflexivity.
Qed.

Lemma C5_lshift_type_check_witness :
  (acceptable (PyVal (PyInt 5)) = false /\
   __lshift__ (PyVal (PyInt 5)) bare
   = (bare,
      Raise (ValueError
               (Msg "ODM object can only receive ClinicalData, Study or AdminData object"))))
  /\
  (acceptable (PyChild a_study) = true /\
   exists c,
     PyChild a_study = PyChild c
     /\ if can_receive c bare
        then outcome (__lshift__ (PyChild a_study)) bare = Ok (PyChild a_study)
             /\ attached c bare (state_after (__lshift__ (PyChild a_study)) bare)
        else exists m,
               __lshift__ (PyChild a_study) bare = (bare, Raise (ValueError m))).
Proof.
  split.
  - split; [reflexivity|].
    exact (proj1 (C5_lshift_type_check (PyVal (PyInt 5)) bare) eq_refl).
  - split; [reflexivity|].
    exact (proj2 (C5_lshift_type_check (PyChild a_study) bare) eq_refl).
Defined.

(** C5 (counterexample): a Study is of an acceptable kind, yet [<<] of a
    second Study does not return it: it raises, and the first Study
    stays. *)
Lemma C5_counterexample :
  acceptable (PyChild other_study) = true
  /\ exists m,
       __lshift__ (PyChild other_study)
         (state_after (__lshift__ (PyChild a_study)) bare)
       = (state_after (__lshift__ (PyChild a_study)) bare, Raise (ValueError m))
       /\ study (state_after (__lshift__ (PyChild a_study)) bare) = Some a_study.
Proof.
  split; [reflexivity|]. eexists. split; reflexivity.
Qed.

Lemma lshift_each_clinical_data cds :
  forall self,
    Forall (fun c => ch_class c = ClinicalData) cds ->
    all_new cds (clinical_data self) = true ->
    lshift_each (map PyChild cds) self
    = (fold_left (fun o c => received c o) cds self, Ok (map PyChild cds))
    /\ clinical_data (fold_left (fun o c => received c o) cds self)
       = clinical_data self ++ cds
    /\ study (fold_left (fun o c => received c o) cds self) = study self
    /\ admindata (fold_left (fun o c => received c o) cds self) = admindata self.
Proof.
  induction cds as [|c cds IH]; intros self F N.
  - cbn. rewrite app_nil_r. repeat split.
  - inversion F as [|? ? Hc F']; subst.
    cbn [all_new] in N. apply andb_true_iff in N. destruct N as [N1 N2].
    assert (R : can_receive c self = true)
      by (unfold can_receive; rewrite Hc; exact N1).
    assert (K : clinical_data (received c self) = clinical_data self ++ [c]
                /\ study (received c self) = study self
                /\ admindata (received c self) = admindata self)
      by (unfold received; rewrite Hc; repeat split).
    destruct K as (Kc & Ks & Ka).
    assert (N2' : all_new cds (clinical_data (received c self)) = true)
      by (rewrite Kc; exact N2).
    destruct (IH (received c self) F' N2') as (E & Ec & Es & Ea).
    cbn [map lshift_each bind M_Monad fold_left].
    rewrite __lshift___child, R, E. cbn [ret M_Monad].
    rewrite Ec, Es, Ea, Kc, Ks, Ka, <- app_assoc. repeat split.
Qed.

(** C6 (amended): receiving any number of distinct ClinicalData
    sub-builders appends each to [clinical_data], in the order received,
    and leaves the study and the administrative data alone; a second
    Study, or a second AdminData, is refused with an error and the one
    attached first stays in place; a ClinicalData that is already in the
    collection is refused too. *)
Theorem C6_attachment_policy :
  (forall self cds,
     Forall (fun c => ch_class c = ClinicalData) cds ->
     all_new cds (clinical_data self) = true ->
     let self' := state_after (lshift_each (map PyChild cds)) self in
     outcome (lshift_each (map PyChild cds)) self = Ok (map PyChild cds)
     /\ clinical_data self' = clinical_data self ++ cds
     /\ study self' = study self /\ admindata self' = admindata self)
  /\
  (forall self s1 s2,
     ch_class s1 = Study -> ch_class s2 = Study -> study self = None ->
     let twice := __lshift__ (PyChild s1) ;; __lshift__ (PyChild s2) in
     (exists m, outcome twice self = Raise (ValueError m))
     /\ study (state_after twice self) = Some s1
     /\ clinical_data (state_after twice self) = clinical_data self
     /\ admindata (state_after twice self) = admindata self)
  /\
  (forall self a1 a2,
     ch_class a1 = AdminData -> ch_class a2 = AdminData -> admindata self = None ->
     let twice := __lshift__ (PyChild a1) ;; __lshift__ (PyChild a2) in
     (exists m, outcome twice self = Raise (ValueError m))
     /\ admindata (state_after twice self) = Some a1
     /\ clinical_data (state_after twice self) = clinical_data self
     /\ study (state_after twice self) = study self)
  /\
  (forall self c,
     ch_class c = ClinicalData -> child_in c (clinical_data self) = true ->
     exists m, __lshift__ (PyChild c) self = (self, Raise (ValueError m))).
Proof.
  split; [|split; [|split]].
  - intros self cds F N. cbv zeta. unfold outcome, state_after.
    destruct (lshift_each_clinical_data cds self F N) as (E & Ec & Es & Ea).
    rewrite E. cbn [fst snd]. repeat split; assumption.
  - intros self s1 s2 H1 H2 H0. cbv zeta.
    assert (E : (__lshift__ (PyChild s1) ;; __lshift__ (PyChild s2)) self
                = (set_study (Some s1) self, Raise (ValueError (refusal s2)))).
    { cbn [bind M_Monad]. rewrite __lshift___child.
      unfold can_receive, received. rewrite H1, H0. cbn [is_set negb].
      rewrite __lshift___child. unfold can_receive. rewrite H2. reflexivity. }
    unfold outcome, state_after. rewrite E. cbn [fst snd].
    split; [eexists; reflexivity | repeat split].
  - intros self a1 a2 H1 H2 H0. cbv zeta.
    assert (E : (__lshift__ (PyChild a1) ;; __lshift__ (PyChild a2)) self
                = (set_admindata (Some a1) self, Raise (ValueError (refusal a2)))).
    { cbn [bind M_Monad]. rewrite __lshift___child.
      unfold can_receive, received. rewrite H1, H0. cbn [is_set negb].
      rewrite __lshift___child. unfold can_receive. rewrite H2. reflexivity. }
    unfold outcome, state_after. rewrite E. cbn [fst snd].
    split; [eexists; reflexivity | repeat split].
  - intros self c Hc Hin. rewrite __lshift___child. unfold can_receive.
    rewrite Hc, Hin. eexists; reflexivity.
Qed.

Lemma C6_attachment_policy_witness :
  (Forall (fun c => ch_class c = ClinicalData) [cd1; cd2; cd3]
   /\ all_new [cd1; cd2; cd3] (clinical_data bare) = true
   /\ outcome (lshift_each (map PyChild [cd1; cd2; cd3])) bare
      = Ok (map PyChild [cd1; cd2; cd3])
   /\ clinical_data (state_after (lshift_each (map PyChild [cd1; cd2; cd3])) bare)
      = clinical_data bare ++ [cd1; cd2; cd3])
  /\
  (ch_class a_study = Study /\ ch_class other_study = Study /\ study bare = None
   /\ study (state_after (__lshift__ (PyChild a_study) ;;
                          __lshift__ (PyChild other_study)) bare)
      = Some a_study)
  /\
  (ch_class an_admin = AdminData /\ ch_class other_admin = AdminData
   /\ admindata bare = None
   /\ admindata (state_after (__lshift__ (PyChild an_admin) ;;
                              __lshift__ (PyChild other_admin)) bare)
      = Some an_admin)
  /\
  (ch_class cd1 = ClinicalData
   /\ child_in cd1
        (clinical_data (state_after (__lshift__ (PyChild cd1)) bare)) = true
   /\ exists m,
        __lshift__ (PyChild cd1) (state_after (__lshift__ (PyChild cd1)) bare)
        = (state_after (__lshift__ (PyChild cd1)) bare, Raise (ValueError m))).
Proof.
  destruct C6_attachment_policy as (Hc & Hs & Ha & Hd).
  split; [|split; [|split]].
  - assert (F : Forall (fun c => ch_class c = ClinicalData) [cd1; cd2; cd3])
      by (repeat constructor).
    split; [exact F|]. split; [reflexivity|].
    destruct (Hc bare [cd1; cd2; cd3] F eq_refl) as (O & C & _).
    split; [exact O | exact C].
  - split; [reflexivity|]. split; [reflexivity|]. split; [reflexivity|].
    exact (proj1 (proj2 (Hs bare a_study other_study eq_refl eq_refl eq_refl))).
  - split; [reflexivity|]. split; [reflexivity|]. split; [reflexivity|].
    exact (proj1 (proj2 (Ha bare an_admin other_admin eq_refl eq_refl eq_refl))).
  - split; [reflexivity|]. split; [reflexivity|].
    exact (Hd (state_after (__lshift__ (PyChild cd1)) bare) cd1 eq_refl eq_refl).
Defined.

(** C6 (counterexample): a second Study does not take the place of the
    first: [<<] of it raises and the instance still holds the Study
    attached first. *)
Lemma C6_counterexample :
  (exists m,
     outcome (__lshift__ (PyChild a_study) ;; __lshift__ (PyChild other_study)) bare
     = Raise (ValueError m))
  /\ study (state_after (__lshift__ (PyChild a_study) ;;
                         __lshift__ (PyChild other_study)) bare)
     = Some a_study
  /\ Some a_study <> Some other_study.
Proof.
  split; [eexists; reflexivity|]. split; [reflexivity | discriminate].
Qed.

(** ** Validation at assignment *)

Lemma contains_In s :
  contains VALID_ODM_VERSIONS (PyVal (PyStr s)) = true <-> In s VALID_ODM_VERSIONS.
Proof.
  unfold contains. rewrite existsb_exists. split.
  - intros (x & Hx & E). cbn in E. apply String.eqb_eq in E. subst x. exact Hx.
  - intro H. exists s. split; [exact H | cbn; apply String.eqb_refl].
Qed.

Lemma contains_not_In s :
  contains VALID_ODM_VERSIONS (PyVal (PyStr s)) = false <-> ~ In s VALID_ODM_VERSIONS.
Proof.
  rewrite <- contains_In.
  destruct (contains VALID_ODM_VERSIONS (PyVal (PyStr s))); split; intro H;
    try reflexivity; try discriminate; try (intro; discriminate).
  exfalso; apply H; reflexivity.
Qed.

Lemma In_valid_nonempty s : In s VALID_ODM_VERSIONS -> String.eqb s "" = false.
Proof.
  cbn. intros [<-|[<-|[<-|[<-|[<-|[]]]]]]; reflexivity.
Qed.

Lemma odm_version_setter_accepts s self :
  In s VALID_ODM_VERSIONS ->
  odm_version_setter (PyVal (PyStr s)) self = (set__odm_version s self, Ok tt).
Proof.
  intro H. apply contains_In in H. unfold odm_version_setter. rewrite H.
  reflexivity.
Qed.

Lemma odm_version_setter_rejects value self :
  contains VALID_ODM_VERSIONS value = false ->
  odm_version_setter value self
  = (self, Raise (ValueError (MsgPercent "No such supported ODMVersion '%s'" value))).
Proof.
  intro H. unfold odm_version_setter. rewrite H. reflexivity.
Qed.

Lemma with_odm_version_other_args a v :
  arg_granularity (with_odm_version a v) = arg_granularity a
  /\ arg_as_of_datetime (with_odm_version a v) = arg_as_of_datetime a
  /\ arg_odm_version (with_odm_version a v) = v.
Proof. repeat split. Qed.

(** Construction with valid other arguments is decided by the version
    argument alone. *)
Lemma __init___version env a v :
  other_args_valid a = true ->
  __init__ env (with_odm_version a v)
  = if truthy v && negb (contains VALID_ODM_VERSIONS (PyVal v))
    then Raise (ValueError (MsgPercent "No such supported ODMVersion '%s'" (PyVal v)))
    else Ok (set__as_of_datetime (isoformat (PyVal (arg_as_of_datetime a)))
               (set__odm_version (version_of v)
                  (set__granularity_type (granularity_of (arg_granularity a))
                     (init_fields env (with_odm_version a v))))).
Proof.
  intro H. rewrite __init___outcome. unfold init_outcome.
  destruct (with_odm_version_other_args a v) as (-> & -> & ->).
  unfold other_args_valid in H. apply andb_true_iff in H. destruct H as [Hg Hd].
  replace (truthy (arg_granularity a)
           && negb (isinstance_GranularityType (PyVal (arg_granularity a))))
    with false
    by (destruct (truthy (arg_granularity a)),
          (isinstance_GranularityType (PyVal (arg_granularity a)));
        try reflexivity; discriminate).
  replace (truthy (arg_as_of_datetime a)
           && negb (isinstance_date (PyVal (arg_as_of_datetime a))))
    with false
    by (destruct (truthy (arg_as_of_datetime a)),
          (isinstance_date (PyVal (arg_as_of_datetime a)));
        try reflexivity; discriminate).
  reflexivity.
Qed.

(** A version that is true and outside the list makes construction raise
    a [ValueError], whatever the other arguments. *)
Lemma __init___bad_version env a v :
  truthy v = true -> contains VALID_ODM_VERSIONS (PyVal v) = false ->
  exists m, __init__ env (with_odm_version a v) = Raise (ValueError m).
Proof.
  intros Ht Hc. rewrite __init___outcome. unfold init_outcome.
  destruct (with_odm_version_other_args a v) as (-> & _ & ->).
  rewrite Ht, Hc. cbn [negb andb].
  destruct (truthy (arg_granularity a)
            && negb (isinstance_GranularityType (PyVal (arg_granularity a))));
    eexists; reflexivity.
Qed.

(** C3 (amended): a string of the allow-list is stored by the setter and
    by the constructor; a string outside the list makes the setter raise at
    once, the stored value staying as it was, and makes the constructor
    raise when the string is not empty; the constructor takes the empty
    string for an argument left out and keeps the default 1.3. *)
Theorem C3_odm_version_validation (s : string) :
  (In s VALID_ODM_VERSIONS ->
     (forall self,
        odm_version_setter (PyVal (PyStr s)) self = (set__odm_version s self, Ok tt)
        /\ _odm_version (set__odm_version s self) = s)
     /\
     (forall env a, other_args_valid a = true ->
        exists self,
          __init__ env (with_odm_version a (PyStr s)) = Ok self
          /\ _odm_version self = s))
  /\
  (~ In s VALID_ODM_VERSIONS ->
     (forall self,
        odm_version_setter (PyVal (PyStr s)) self
        = (self,
           Raise (ValueError
                    (MsgPercent "No such supported ODMVersion '%s'"
                       (PyVal (PyStr s))))))
     /\
     (s <> "" ->
        forall env a,
          (exists m, __init__ env (with_odm_version a (PyStr s))
                     = Raise (ValueError m))
          /\ (other_args_valid a = true ->
              __init__ env (with_odm_version a (PyStr s))
              = Raise (ValueError
                         (MsgPercent "No such supported ODMVersion '%s'"
                            (PyVal (PyStr s))))))
     /\
     (s = "" ->
        forall env a, other_args_valid a = true ->
          exists self,
            __init__ env (with_odm_version a (PyStr s)) = Ok self
            /\ _odm_version self = "1.3")).
Proof.
  split.
  - intro H. split.
    + intro self. split; [apply odm_version_setter_accepts; exact H | reflexivity].
    + intros env a Ha. rewrite (__init___version env a (PyStr s) Ha).
      rewrite (proj2 (contains_In s) H). rewrite andb_false_r.
      eexists; split; [reflexivity|].
      cbn. rewrite (In_valid_nonempty s H). reflexivity.
  - intro H. apply contains_not_In in H. split; [|split].
    + intro self. apply odm_version_setter_rejects; exact H.
    + intros Hs env a.
      assert (T : truthy (PyStr s) = true).
      { cbn. destruct (String.eqb s "") eqn:E; [|reflexivity].
        apply String.eqb_eq in E. contradiction. }
      split.
      * apply __init___bad_version; assumption.
      * intro Ha. rewrite (__init___version env a (PyStr s) Ha).
        rewrite T, H. reflexivity.
    + intros -> env a Ha. rewrite (__init___version env a (PyStr "") Ha).
      eexists; split; reflexivity.
Qed.

Lemma C3_odm_version_validation_witness :
  (In "1.3.1" VALID_ODM_VERSIONS /\
   odm_version_setter (PyVal (PyStr "1.3.1")) bare
   = (set__odm_version "1.3.1" bare, Ok tt) /\
   other_args_valid sponsor = true /\
   exists self,
     __init__ env0 (with_odm_version sponsor (PyStr "1.3.1")) = Ok self
     /\ _odm_version self = "1.3.1")
  /\
  (~ In "9.9" VALID_ODM_VERSIONS /\ "9.9" <> "" /\
   odm_version_setter (PyVal (PyStr "9.9")) bare
   = (bare,
      Raise (ValueError
               (MsgPercent "No such supported ODMVersion '%s'"
                  (PyVal (PyStr "9.9"))))) /\
   __init__ env0 (with_odm_version sponsor (PyStr "9.9"))
   = Raise (ValueError
              (MsgPercent "No such supported ODMVersion '%s'"
                 (PyVal (PyStr "9.9")))))
  /\
  (~ In "" VALID_ODM_VERSIONS /\
   exists self,
     __init__ env0 (with_odm_version sponsor (PyStr "")) = Ok self
     /\ _odm_version self = "1.3").
Proof.
  assert (I1 : In "1.3.1" VALID_ODM_VERSIONS) by (cbn; auto 6).
  assert (N9 : ~ In "9.9" VALID_ODM_VERSIONS)
    by (cbn; intros [H|[H|[H|[H|[H|[]]]]]]; discriminate).
  assert (N0 : ~ In "" VALID_ODM_VERSIONS)
    by (cbn; intros [H|[H|[H|[H|[H|[]]]]]]; discriminate).
  assert (D9 : "9.9" <> "") by discriminate.
  split; [|split].
  - destruct (proj1 (C3_odm_version_validation "1.3.1") I1) as [Hset Hinit].
    split; [exact I1|]. split; [exact (proj1 (Hset bare))|].
    split; [reflexivity|]. exact (Hinit env0 sponsor eq_refl).
  - destruct (proj2 (C3_odm_version_validation "9.9") N9) as (Hset & Hinit & _).
    split; [exact N9|]. split; [exact D9|]. split; [exact (Hset bare)|].
    exact (proj2 (Hinit D9 env0 sponsor) eq_refl).
  - destruct (proj2 (C3_odm_version_validation "") N0) as (_ & _ & Hinit).
    split; [exact N0|]. exact (Hinit eq_refl env0 sponsor eq_refl).
Defined.

(** C3 (counterexample): the empty string is outside the allow-list, yet
    passing it to the constructor as the schema version raises nothing;
    the instance is built with version 1.3. *)
Lemma C3_counterexample :
  ~ In "" VALID_ODM_VERSIONS /\
  exists self,
    __init__ env0 (with_odm_version sponsor (PyStr "")) = Ok self
    /\ _odm_version self = "1.3".
Proof.
  split.
  - cbn; intros [H|[H|[H|[H|[H|[]]]]]]; discriminate.
  - eexists; split; reflexivity.
Qed.

(** C4: assigning a date or a date-time as the as-of timestamp succeeds and
    stores its ISO text; assigning any other object raises and leaves the
    stored timestamp, and the rest of the instance, as it was. *)
Theorem C4_as_of_datetime_validation :
  (forall d self,
     as_of_datetime_setter (PyVal (PyDate d)) self
     = (set__as_of_datetime (Some (date_isoformat d)) self, Ok tt)
     /\ outcome as_of_datetime
          (state_after (as_of_datetime_setter (PyVal (PyDate d))) self)
        = Ok (Some (date_isoformat d)))
  /\
  (forall t self,
     as_of_datetime_setter (PyVal (PyDateTime t)) self
     = (set__as_of_datetime (Some (datetime_isoformat t)) self, Ok tt)
     /\ outcome as_of_datetime
          (state_after (as_of_datetime_setter (PyVal (PyDateTime t))) self)
        = Ok (Some (datetime_isoformat t)))
  /\
  (forall value self,
     isinstance_date value = false ->
     as_of_datetime_setter value self
     = (self, Raise (ValueError (Msg "Unexpected format for AsOfDateTime")))).
Proof.
  split; [|split].
  - intros d self. split; reflexivity.
  - intros t self. split; reflexivity.
  - intros value self H. unfold as_of_datetime_setter. rewrite H. reflexivity.
Qed.

Lemma C4_as_of_datetime_validation_witness :
  (isinstance_date (PyVal (PyStr "2020-01-05")) = false /\
   as_of_datetime_setter (PyVal (PyStr "2020-01-05")) bare
   = (bare, Raise (ValueError (Msg "Unexpected format for AsOfDateTime"))))
  /\
  (isinstance_date (PyVal (PyInt 20200105)) = false /\
   as_of_datetime_setter (PyVal (PyInt 20200105)) bare
   = (bare, Raise (ValueError (Msg "Unexpected format for AsOfDateTime")))).
Proof.
  destruct C4_as_of_datetime_validation as (_ & _ & H).
  split; (split; [reflexivity | apply H; reflexivity]).
Defined.

(** ** What the operations leave alone *)

(** Every operation either leaves the instance as it is, receives a
    sub-builder, or stores a version, a timestamp or a granularity. *)
Lemma perform_cases indent tostring op self :
  let self' := perform indent tostring op self in
  self' = self
  \/ (exists c, self' = received c self)
  \/ (exists s, self' = set__odm_version s self)
  \/ (exists s, self' = set__as_of_datetime (Some s) self)
  \/ (exists g, self' = set__granularity_type (Some g) self).
Proof.
  cbv zeta. destruct op as [other|value|value|value| | | |builder| | ];
    cbn [perform].
  - destruct other as [v|c].
    + left. reflexivity.
    + unfold state_after. rewrite __lshift___child.
      destruct (can_receive c self); [|left; reflexivity].
      right; left. exists c. reflexivity.
  - unfold state_after, odm_version_setter.
    destruct (contains VALID_ODM_VERSIONS value); [|left; reflexivity].
    destruct value as [[| | |s| | |]|]; try (left; reflexivity).
    right; right; left. exists s. reflexivity.
  - unfold state_after, as_of_datetime_setter.
    destruct (isinstance_date value); [|left; reflexivity].
    cbn [negb]. destruct (isoformat value) as [s|]; [|left; reflexivity].
    right; right; right; left. exists s. reflexivity.
  - unfold state_after, granularity_type_setter.
    destruct (isinstance_GranularityType value); [|left; reflexivity].
    destruct value as [[| | | | | |g]|]; try (left; reflexivity).
    right; right; right; right. exists g. reflexivity.
  - left. reflexivity.
  - left. reflexivity.
  - left. reflexivity.
  - left. apply read_only_build.
  - left. apply read_only_getroot.
  - left. apply read_only___str__.
Qed.

Lemma received_frame c self :
  fileoid (received c self) = fileoid self
  /\ filetype (received c self) = filetype self
  /\ _granularity_type (received c self) = _granularity_type self.
Proof. unfold received. destruct (ch_class c); repeat split. Qed.

Lemma perform_fileoid indent tostring op self :
  fileoid (perform indent tostring op self) = fileoid self.
Proof.
  destruct (perform_cases indent tostring op self)
    as [-> | [[c ->] | [[s ->] | [[s ->] | [g ->]]]]];
    try reflexivity. apply received_frame.
Qed.

Lemma perform_filetype indent tostring op self :
  filetype (perform indent tostring op self) = filetype self.
Proof.
  destruct (perform_cases indent tostring op self)
    as [-> | [[c ->] | [[s ->] | [[s ->] | [g ->]]]]];
    try reflexivity. apply received_frame.
Qed.

Lemma perform_granularity_stays_set indent tostring op self :
  is_set (_granularity_type self) = true ->
  is_set (_granularity_type (perform indent tostring op self)) = true.
Proof.
  intro H.
  destruct (perform_cases indent tostring op self)
    as [-> | [[c ->] | [[s ->] | [[s ->] | [g ->]]]]];
    try assumption; try reflexivity.
  destruct (received_frame c self) as (_ & _ & ->). exact H.
Qed.

Lemma perform_all_invariant indent tostring (P : ODM -> Prop) :
  (forall op self, P self -> P (perform indent tostring op self)) ->
  forall ops self, P self -> P (perform_all indent tostring ops self).
Proof.
  intros Hstep ops. unfold perform_all.
  induction ops as [|op ops IH]; intros self H; [exact H|].
  cbn [fold_left]. apply IH, Hstep, H.
Qed.

(** What a successful construction leaves in the instance. *)
Lemma __init___Ok env a self :
  __init__ env a = Ok self ->
  self = set__as_of_datetime (isoformat (PyVal (arg_as_of_datetime a)))
           (set__odm_version (version_of (arg_odm_version a))
              (set__granularity_type (granularity_of (arg_granularity a))
                 (init_fields env a)))
  /\ (truthy (arg_granularity a) = true ->
      isinstance_GranularityType (PyVal (arg_granularity a)) = true).
Proof.
  intro H. rewrite __init___outcome in H. unfold init_outcome in H.
  destruct (truthy (arg_granularity a)
            && negb (isinstance_GranularityType (PyVal (arg_granularity a))))
    eqn:Eg; [discriminate|].
  repeat match type of H with
         | (if ?c then _ else _) = _ => destruct c; [discriminate|]
         end.
  injection H as H. split; [symmetry; exact H|].
  intro T. rewrite T in Eg.
  destruct (isinstance_GranularityType (PyVal (arg_granularity a)));
    [reflexivity | discriminate].
Qed.

Lemma __init___fields env a self :
  __init__ env a = Ok self ->
  filetype self
  = (if is_None (arg_filetype a) then "Transactional" else "Snapshot")
  /\ fileoid self
     = (if is_None (arg_fileoid a) then PyStr (uuid4 env) else arg_fileoid a)
  /\ is_set (_granularity_type self) = truthy (arg_granularity a).
Proof.
  intro H. apply __init___Ok in H. destruct H as [-> Hg].
  split; [reflexivity|]. split; [reflexivity|].
  cbn. destruct (arg_granularity a) as [|b|z|s|d|t|g]; cbn in *;
    try reflexivity;
    match goal with
    | |- false = ?c => destruct c; [discriminate (Hg eq_refl) | reflexivity]
    end.
Qed.

(** C7: the file type of an instance is Transactional when the constructor
    was given no file type ([None]) and Snapshot for every other argument,
    the string Transactional included; no operation changes it. *)
Theorem C7_filetype_labels env a self :
  __init__ env a = Ok self ->
  filetype self
  = (if is_None (arg_filetype a) then "Transactional" else "Snapshot")
  /\ (arg_filetype a = PyStr "Transactional" -> filetype self = "Snapshot")
  /\ (forall indent tostring ops,
        let self' := perform_all indent tostring ops self in
        filetype self' = filetype self
        /\ (filetype self' = "Transactional" \/ filetype self' = "Snapshot")).
Proof.
  intro H. destruct (__init___fields env a self H) as (E & _ & _).
  split; [exact E|]. split.
  - intro Ht. rewrite E, Ht. reflexivity.
  - intros indent tostring ops. cbv zeta.
    assert (K : filetype (perform_all indent tostring ops self) = filetype self).
    { apply (perform_all_invariant indent tostring
               (fun o => filetype o = filetype self)); [|reflexivity].
      intros op o Ho. rewrite perform_filetype. exact Ho. }
    split; [exact K|]. rewrite K, E.
    destruct (is_None (arg_filetype a)); [left | right]; reflexivity.
Qed.

Lemma C7_filetype_labels_witness :
  exists self,
    __init__ env0 (with_filetype sponsor (PyStr "Transactional")) = Ok self
    /\ filetype self = "Snapshot".
Proof.
  eexists. split; [reflexivity|].
  refine (proj1 (proj2 (C7_filetype_labels env0
                          (with_filetype sponsor (PyStr "Transactional")) _ eq_refl))
            eq_refl).
Defined.

Section Rendering_is_stable.

Variable indent : Element -> Element.
Variable tostring : Element -> result string.

Lemma __str___outcome self :
  __str__ indent tostring self
  = (self, s <- tostring (indent (root_element self)) ;; Ok (header ++ s)%string).
Proof.
  unfold __str__. cbn [bind M_Monad]. rewrite getroot_root_element.
  unfold lift. destruct (tostring (indent (root_element self))); reflexivity.
Qed.

(** C8: serializing an instance twice in a row gives the same text (or the
    same exception) both times, and the root element rendered after a
    serialization is the one rendered before it, attributes in the same
    order. *)
Theorem C8_serialization_repeatable self :
  outcome (__str__ indent tostring)
    (state_after (__str__ indent tostring) self)
  = outcome (__str__ indent tostring) self
  /\ outcome (__str__ indent tostring) self
     = (s <- tostring (indent (root_element self)) ;; Ok (header ++ s)%string)
  /\ exists root,
       outcome getroot self = Ok root
       /\ outcome getroot (state_after (__str__ indent tostring) self) = Ok root
       /\ outcome getroot (state_after getroot self) = Ok root
       /\ keys (attrib_of root) = keys (root_attributes self).
Proof.
  unfold outcome, state_after.
  repeat (rewrite ?__str___outcome, ?getroot_root_element; cbn [fst snd]).
  split; [reflexivity|]. split; [reflexivity|].
  exists (root_element self). repeat split.
Qed.

(** C9: rendering and serialization leave the whole instance as it was,
    and no operation of the class, in any sequence, changes the file
    identifier. *)
Theorem C9_render_pure_fileoid_fixed :
  (forall self builder,
     state_after (build builder) self = self
     /\ state_after getroot self = self
     /\ state_after (__str__ indent tostring) self = self)
  /\ (forall op self, fileoid (perform indent tostring op self) = fileoid self)
  /\ (forall ops self,
        fileoid (perform_all indent tostring ops self) = fileoid self).
Proof.
  split; [|split].
  - intros self builder. split; [apply read_only_build|].
    split; [apply read_only_getroot | apply read_only___str__].
  - intros op self. apply perform_fileoid.
  - intros ops self.
    apply (perform_all_invariant indent tostring
             (fun o => fileoid o = fileoid self)); [|reflexivity].
    intros op o Ho. rewrite perform_fileoid. exact Ho.
Qed.

(** C10: constructing an instance without a granularity argument stores
    [GranularityType.AllClinicalData], and its rendered root carries
    Granularity with the value AllClinicalData; a freshly constructed
    instance renders without Granularity exactly when the granularity
    argument passed was false ([None], for one), and once present the
    attribute stays through every operation. *)
Theorem C10_default_granularity :
  (forall env originator,
     exists self root,
       __init__ env (default_args originator) = Ok self
       /\ _granularity_type self = Some GranularityType.AllClinicalData
       /\ outcome getroot self = Ok root
       /\ attribute root "Granularity" = Some (PyStr "AllClinicalData"))
  /\
  (forall env a self,
     __init__ env a = Ok self ->
     exists root,
       outcome getroot self = Ok root
       /\ present root "Granularity" = truthy (arg_granularity a))
  /\
  (forall env a self ops,
     __init__ env a = Ok self ->
     truthy (arg_granularity a) = true ->
     exists root,
       outcome getroot (perform_all indent tostring ops self) = Ok root
       /\ present root "Granularity" = true).
Proof.
  assert (P : forall self,
            present (root_element self) "Granularity"
            = is_set (_granularity_type self)).
  { intro self. root_attribute. destruct (_granularity_type self); reflexivity. }
  split; [|split].
  - intros env originator. eexists. eexists.
    split; [reflexivity|]. split; [reflexivity|].
    unfold outcome. rewrite getroot_root_element. split; reflexivity.
  - intros env a self H. exists (root_element self).
    unfold outcome. rewrite getroot_root_element. split; [reflexivity|].
    rewrite P. apply (__init___fields env a self H).
  - intros env a self ops H T.
    exists (root_element (perform_all indent tostring ops self)).
    unfold outcome. rewrite getroot_root_element. split; [reflexivity|].
    rewrite P.
    apply (perform_all_invariant indent tostring
             (fun o => is_set (_granularity_type o) = true)).
    + intros op o. apply perform_granularity_stays_set.
    + destruct (__init___fields env a self H) as (_ & _ & ->). exact T.
Qed.

End Rendering_is_stable.

Lemma C10_default_granularity_witness :
  (exists self,
     __init__ env0 (with_granularity sponsor PyNone) = Ok self
     /\ exists root,
          outcome getroot self = Ok root
          /\ present root "Granularity" = truthy PyNone)
  /\
  (exists self,
     __init__ env0 full_args = Ok self
     /\ truthy (arg_granularity full_args) = true
     /\ exists root,
          outcome getroot
            (perform_all no_indent tag_only
               [Lshift (PyChild cd1); Set_granularity_type (PyVal PyNone); Str]
               self) = Ok root
          /\ present root "Granularity" = true).
Proof.
  destruct (C10_default_granularity no_indent tag_only) as (_ & H2 & H3).
  split.
  - eexists. split; [reflexivity|].
    exact (H2 env0 (with_granularity sponsor PyNone) _ eq_refl).
  - eexists. split; [reflexivity|]. split; [reflexivity|].
    exact (H3 env0 full_args _
             [Lshift (PyChild cd1); Set_granularity_type (PyVal PyNone); Str]
             eq_refl eq_refl).
Defined.

(** ** The model at work *)

Example date_isoformat_example :
  date_isoformat (mk_date 2020 1 5) = "2020-01-05".
Proof. reflexivity. Qed.

Example datetime_isoformat_example :
  datetime_isoformat (mk_datetime (mk_date 2020 1 5) 3 4 5 6 (Some (-19800)%Z))
  = "2020-01-05T03:04:05.000006-05:30".
Proof. reflexivity. Qed.

Example datetime_isoformat_naive :
  datetime_isoformat (mk_datetime (mk_date 1999 12 31) 23 59 59 0 None)
  = "1999-12-31T23:59:59".
Proof. reflexivity. Qed.

Example sponsor_constructed :
  __init__ env0 sponsor
  = Ok (mk_ODM (PyStr "SPONSOR") (PyStr "") (PyStr "2026-01-02T03:04:05")
          PyNone PyNone [] None "Transactional" None
          (PyStr "3f0c2a9e-5b7d-4c1e-9a55-0d8e6f1b2c3d")
          (Some GranularityType.AllClinicalData) "1.3" None).
Proof. reflexivity. Qed.

Example sponsor_rendered :
  outcome getroot bare
  = Ok (Elem "ODM"
          [ ("ODMVersion", PyStr "1.3");
            ("FileType", PyStr "Transactional");
            ("CreationDateTime", PyStr "2026-01-02T03:04:05");
            ("Originator", PyStr "SPONSOR");
            ("FileOID", PyStr "3f0c2a9e-5b7d-4c1e-9a55-0d8e6f1b2c3d");
            ("xmlns", PyStr "http://www.cdisc.org/ns/odm/v1.3");
            ("xmlns:mdsol", PyStr "http://www.mdsol.com/ns/odm/metadata") ]
          None [] None).
Proof. reflexivity. Qed.

Example populated_rendered :
  outcome getroot populated
  = Ok (Elem "ODM"
          [ ("ODMVersion", PyStr "1.3.2");
            ("FileType", PyStr "Snapshot");
            ("CreationDateTime", PyStr "2025-06-01T00:00:00");
            ("Originator", PyStr "SPONSOR");
            ("FileOID", PyStr "F-001");
            ("xmlns", PyStr "http://www.cdisc.org/ns/odm/v1.3");
            ("Granularity", PyStr "SingleSubject");
            ("SourceSystem", PyStr "EDC");
            ("SourceSystemVersion", PyStr "2.1");
            ("xmlns:mdsol", PyStr "http://www.mdsol.com/ns/odm/metadata");
            ("Description", PyStr "Nightly export");
            ("AsOfDateTime", PyStr "2025-05-31") ]
          None
          [ leaf "Study"; leaf "ClinicalData";
            Elem "ClinicalData" [("StudyOID", PyStr "S")] None [] None;
            leaf "AdminData" ]
          None).
Proof. reflexivity. Qed.

Example populated_serialized :
  outcome (__str__ no_indent tag_only) populated
  = Ok (header ++ "<ODM />")%string.
Proof. reflexivity. Qed.

Example text_and_tail_rendered :
  outcome getroot (state_after (__lshift__ (PyChild other_study)) bare)
  = Ok (Elem "ODM" (root_attributes bare) None [ch_elem other_study] None).
Proof. reflexivity. Qed.

Example bad_version_rejected :
  __init__ env0 (with_odm_version sponsor (PyStr "9.9"))
  = Raise (ValueError
             (MsgPercent "No such supported ODMVersion '%s'" (PyVal (PyStr "9.9")))).
Proof. reflexivity. Qed.

Example build_under_open_element :
  exists builder,
    outcome (build (mk_tb [] [mk_frame "Outer" [] None []] LastOpen None)) bare
    = Ok (builder, Elem "Outer" [] None [root_element bare] None).
Proof. eexists. reflexivity. Qed.

Example build_after_finished_document :
  outcome (build (mk_tb [] [] LastRoot (Some (leaf "Done")))) bare
  = Raise (ParseError "multiple elements on top level").
Proof. reflexivity. Qed.

Example second_study_refused :
  __lshift__ (PyChild other_study) populated
  = (populated, Raise (ValueError (Msg "ODM already has a Study element set."))).
Proof. reflexivity. Qed.

(** * Further properties *)

(** ** The granularity setter *)

(** X1: assigning a member of [GranularityType] stores it, the getter
    returns it and the root renders its value as Granularity; assigning
    anything else, [None] included, raises and leaves the instance as it
    was. *)
Theorem X1_granularity_type_validation :
  (forall g self,
     granularity_type_setter (PyVal (PyEnum g)) self
     = (set__granularity_type (Some g) self, Ok tt)
     /\ outcome granularity_type
          (state_after (granularity_type_setter (PyVal (PyEnum g))) self)
        = Ok (Some g)
     /\ exists root,
          outcome getroot
            (state_after (granularity_type_setter (PyVal (PyEnum g))) self)
          = Ok root
          /\ attribute root "Granularity" = Some (PyStr (GranularityType.value g)))
  /\
  (forall value self,
     isinstance_GranularityType value = false ->
     granularity_type_setter value self
     = (self,
        Raise (ValueError
                 (MsgFormatType "Should be an instance of GranularityType not {}"
                    value)))).
Proof.
  split.
  - intros g self. split; [reflexivity|]. split; [reflexivity|].
    exists (root_element (set__granularity_type (Some g) self)).
    unfold outcome, state_after. cbn [fst granularity_type_setter
      isinstance_GranularityType negb modify].
    rewrite getroot_root_element. split; [reflexivity|].
    root_attribute. reflexivity.
  - intros value self H. unfold granularity_type_setter. rewrite H. reflexivity.
Qed.

Lemma X1_granularity_type_validation_witness :
  isinstance_GranularityType (PyVal PyNone) = false /\
  granularity_type_setter (PyVal PyNone) populated
  = (populated,
     Raise (ValueError
              (MsgFormatType "Should be an instance of GranularityType not {}"
                 (PyVal PyNone)))).
Proof.
  split; [reflexivity|].
  exact (proj2 X1_granularity_type_validation (PyVal PyNone) populated eq_refl).
Defined.

(** ** Construction *)

Lemma init_outcome_valid env a :
  granularity_arg_valid a = true -> version_arg_valid a = true ->
  as_of_arg_valid a = true ->
  init_outcome env a
  = Ok (set__as_of_datetime (isoformat (PyVal (arg_as_of_datetime a)))
          (set__odm_version (version_of (arg_odm_version a))
             (set__granularity_type (granularity_of (arg_granularity a))
                (init_fields env a)))).
Proof.
  unfold granularity_arg_valid, version_arg_valid, as_of_arg_valid, init_outcome.
  intros Hg Hv Hd. cbv zeta.
  destruct (truthy (arg_granularity a)),
    (isinstance_GranularityType (PyVal (arg_granularity a))); try discriminate;
  destruct (truthy (arg_odm_version a)),
    (contains VALID_ODM_VERSIONS (PyVal (arg_odm_version a))); try discriminate;
  destruct (truthy (arg_as_of_datetime a)),
    (isinstance_date (PyVal (arg_as_of_datetime a))); try discriminate;
  reflexivity.
Qed.

(** X2: the constructor returns an instance exactly when each of
    granularity, odm_version and as_of_datetime is false or accepted by its
    setter; otherwise it raises the error of the first offending argument
    in the order granularity, odm_version, as_of_datetime. *)
Theorem X2_init_validation env a :
  (granularity_arg_valid a = true -> version_arg_valid a = true ->
   as_of_arg_valid a = true ->
   exists self, __init__ env a = Ok self)
  /\
  (granularity_arg_valid a = false ->
   __init__ env a
   = Raise (ValueError
              (MsgFormatType "Should be an instance of GranularityType not {}"
                 (PyVal (arg_granularity a)))))
  /\
  (granularity_arg_valid a = true -> version_arg_valid a = false ->
   __init__ env a
   = Raise (ValueError
              (MsgPercent "No such supported ODMVersion '%s'"
                 (PyVal (arg_odm_version a)))))
  /\
  (granularity_arg_valid a = true -> version_arg_valid a = true ->
   as_of_arg_valid a = false ->
   __init__ env a
   = Raise (ValueError (Msg "Unexpected format for AsOfDateTime"))).
Proof.
  rewrite __init___outcome.
  split; [|split; [|split]].
  - intros Hg Hv Hd. rewrite (init_outcome_valid env a Hg Hv Hd).
    eexists; reflexivity.
  - unfold granularity_arg_valid, init_outcome. intro Hg. cbv zeta.
    destruct (truthy (arg_granularity a)),
      (isinstance_GranularityType (PyVal (arg_granularity a)));
      try discriminate; reflexivity.
  - unfold granularity_arg_valid, version_arg_valid, init_outcome.
    intros Hg Hv. cbv zeta.
    destruct (truthy (arg_granularity a)),
      (isinstance_GranularityType (PyVal (arg_granularity a)));
      try discriminate;
    destruct (truthy (arg_odm_version a)),
      (contains VALID_ODM_VERSIONS (PyVal (arg_odm_version a)));
      try discriminate; reflexivity.
  - unfold granularity_arg_valid, version_arg_valid, as_of_arg_valid, init_outcome.
    intros Hg Hv Hd. cbv zeta.
    destruct (truthy (arg_granularity a)),
      (isinstance_GranularityType (PyVal (arg_granularity a)));
      try discriminate;
    destruct (truthy (arg_odm_version a)),
      (contains VALID_ODM_VERSIONS (PyVal (arg_odm_version a)));
      try discriminate;
    destruct (truthy (arg_as_of_datetime a)),
      (isinstance_date (PyVal (arg_as_of_datetime a)));
      try discriminate; reflexivity.
Qed.

Lemma X2_init_validation_witness :
  (exists self, __init__ env0 full_args = Ok self)
  /\
  __init__ env0
    (with_granularity (with_odm_version full_args (PyStr "9.9"))
       (PyStr "AllClinicalData"))
  = Raise (ValueError
             (MsgFormatType "Should be an instance of GranularityType not {}"
                (PyVal (PyStr "AllClinicalData"))))
  /\
  __init__ env0
    (with_as_of_datetime (with_odm_version full_args (PyStr "9.9"))
       (PyStr "2025-05-31"))
  = Raise (ValueError
             (MsgPercent "No such supported ODMVersion '%s'" (PyVal (PyStr "9.9"))))
  /\
  __init__ env0 (with_as_of_datetime full_args (PyStr "2025-05-31"))
  = Raise (ValueError (Msg "Unexpected format for AsOfDateTime")).
Proof.
  split; [|split; [|split]].
  - exact (proj1 (X2_init_validation env0 full_args) eq_refl eq_refl eq_refl).
  - exact (proj1 (proj2 (X2_init_validation env0
             (with_granularity (with_odm_version full_args (PyStr "9.9"))
                (PyStr "AllClinicalData")))) eq_refl).
  - exact (proj1 (proj2 (proj2 (X2_init_validation env0
             (with_as_of_datetime (with_odm_version full_args (PyStr "9.9"))
                (PyStr "2025-05-31"))))) eq_refl eq_refl).
  - exact (proj2 (proj2 (proj2 (X2_init_validation env0
             (with_as_of_datetime full_args (PyStr "2025-05-31")))))
             eq_refl eq_refl eq_refl).
Defined.

(** X3: a false value ([None], an empty string, zero, [False]) passed as
    granularity, odm_version or as_of_datetime is never validated: the
    constructor does exactly what it does when the argument is [None]. *)
Theorem X3_init_falsy_is_omitted env a v :
  truthy v = false ->
  __init__ env (with_granularity a v) = __init__ env (with_granularity a PyNone)
  /\ __init__ env (with_odm_version a v) = __init__ env (with_odm_version a PyNone)
  /\ __init__ env (with_as_of_datetime a v)
     = __init__ env (with_as_of_datetime a PyNone).
Proof.
  intro H. rewrite !__init___outcome. unfold init_outcome.
  cbn [arg_granularity arg_odm_version arg_as_of_datetime
         with_granularity with_odm_version with_as_of_datetime].
  rewrite H. cbn [truthy andb].
  split; [|split].
  - destruct v; try discriminate; reflexivity.
  - destruct v as [| b | z | s | d | t | g]; try discriminate; try reflexivity.
    cbn in H. destruct (String.eqb s "") eqn:E; [|discriminate].
    cbn [version_of]. rewrite E. reflexivity.
  - destruct v; try discriminate; reflexivity.
Qed.

Lemma X3_init_falsy_is_omitted_witness :
  truthy (PyInt 0) = false /\
  __init__ env0 (with_as_of_datetime full_args (PyInt 0))
  = __init__ env0 (with_as_of_datetime full_args PyNone).
Proof.
  split; [reflexivity|].
  exact (proj2 (proj2 (X3_init_falsy_is_omitted env0 full_args (PyInt 0) eq_refl))).
Defined.

(** X4: the root rendered from a newly constructed instance carries the
    constructor's arguments: Originator as given; FileOID as given unless
    it is [None], when it is the generated identifier (an empty string is
    kept); CreationDateTime as given unless it is false, when it is the
    current time; ODMVersion as given, 1.3 if left out; and no children. *)
Theorem X4_init_then_render env a self :
  __init__ env a = Ok self ->
  exists root,
    outcome getroot self = Ok root
    /\ attribute root "Originator" = Some (arg_originator a)
    /\ attribute root "FileOID"
       = Some (if is_None (arg_fileoid a) then PyStr (uuid4 env)
               else arg_fileoid a)
    /\ attribute root "CreationDateTime"
       = Some (if truthy (arg_creationdatetime a) then arg_creationdatetime a
               else PyStr (now_to_iso8601 env))
    /\ attribute root "ODMVersion"
       = Some (if truthy (arg_odm_version a) then arg_odm_version a
               else PyStr "1.3")
    /\ present root "Description" = truthy (arg_description a)
    /\ present root "SourceSystem" = truthy (arg_source_system a)
    /\ present root "SourceSystemVersion" = truthy (arg_source_system_version a)
    /\ children_of root = [].
Proof.
  intro H. pose proof H as H0. rewrite __init___outcome in H0.
  apply __init___Ok in H. destruct H as [-> _].
  eexists. unfold outcome. rewrite getroot_root_element. split; [reflexivity|].
  repeat split; try (root_attribute; reflexivity).
  - root_attribute. f_equal.
    unfold init_outcome in H0. cbv zeta in H0.
    destruct (truthy (arg_granularity a)
              && negb (isinstance_GranularityType (PyVal (arg_granularity a))));
      [discriminate|].
    destruct (arg_odm_version a) as [| b | z | s | d | t | g]; cbn in *;
      try reflexivity;
      try (destruct b; [discriminate | reflexivity]);
      try (destruct (Z.eqb z 0); [reflexivity | discriminate]);
      try discriminate.
    destruct (String.eqb s ""); reflexivity.
  - root_attribute. cbn. destruct (truthy (arg_description a)); reflexivity.
  - root_attribute. cbn. destruct (truthy (arg_source_system a)); reflexivity.
  - root_attribute. cbn.
    destruct (truthy (arg_source_system_version a)); reflexivity.
Qed.

Lemma X4_init_then_render_witness :
  exists self root,
    __init__ env0 (with_creationdatetime (with_fileoid sponsor (PyStr "")) (PyStr ""))
    = Ok self
    /\ outcome getroot self = Ok root
    /\ attribute root "FileOID" = Some (PyStr "")
    /\ attribute root "CreationDateTime" = Some (PyStr "2026-01-02T03:04:05").
Proof.
  eexists.
  destruct (X4_init_then_render env0
              (with_creationdatetime (with_fileoid sponsor (PyStr "")) (PyStr ""))
              _ eq_refl) as (root & R & _ & F & C & _).
  exists root. split; [reflexivity|]. split; [exact R|]. split; [exact F | exact C].
Defined.

(** X5: when the creation time passed is true and the file identifier
    passed is not [None], the constructor consults neither the clock nor
    the identifier generator: its outcome is the same in every
    environment. *)
Theorem X5_init_explicit_is_reproducible env1 env2 a :
  truthy (arg_creationdatetime a) = true ->
  is_None (arg_fileoid a) = false ->
  __init__ env1 a = __init__ env2 a.
Proof.
  intros Hc Hf. rewrite !__init___outcome. unfold init_outcome, init_fields.
  unfold or_else. rewrite Hc, Hf. reflexivity.
Qed.

Lemma X5_init_explicit_is_reproducible_witness :
  truthy (arg_creationdatetime full_args) = true /\
  is_None (arg_fileoid full_args) = false /\
  __init__ env0 full_args = __init__ (mk_env "1970-01-01T00:00:00" "0") full_args.
Proof.
  split; [reflexivity|]. split; [reflexivity|].
  exact (X5_init_explicit_is_reproducible env0
           (mk_env "1970-01-01T00:00:00" "0") full_args eq_refl eq_refl).
Defined.

(** ** The attribute dictionary *)

Lemma keys_dict_set_new d k v :
  ~ In k (keys d) -> keys (dict_set d k v) = keys d ++ [k].
Proof.
  unfold keys. induction d as [|[k0 v0] d IH]; cbn; intro H; [reflexivity|].
  destruct (String.eqb k0 k) eqn:E.
  - apply String.eqb_eq in E. exfalso; apply H; left; exact E.
  - cbn. rewrite IH; [reflexivity|]. intro; apply H; right; assumption.
Qed.

Lemma keys_dict_set_if (c : bool) d k v :
  ~ In k (keys d) ->
  keys (if c then dict_set d k v else d) = keys d ++ optional_key c k.
Proof.
  intro H. destruct c; cbn; [apply keys_dict_set_new; exact H|].
  rewrite app_nil_r; reflexivity.
Qed.

Ltac not_in_keys :=
  rewrite ?in_app_iff; unfold optional_key;
  repeat match goal with
         | |- context [if ?c then _ else _] => destruct c
         end;
  cbn; intuition discriminate.

(** X6: the attributes of the rendered root are, in this order, ODMVersion,
    FileType, CreationDateTime, Originator, FileOID, xmlns, then Granularity,
    SourceSystem and SourceSystemVersion where set, then xmlns:mdsol, then
    Description and AsOfDateTime where set, and nothing else; no name
    occurs twice. *)
Theorem X6_root_attribute_order self :
  exists root,
    outcome getroot self = Ok root
    /\ keys (attrib_of root) = expected_keys self
    /\ NoDup (keys (attrib_of root)).
Proof.
  exists (root_element self). unfold outcome. rewrite getroot_root_element.
  split; [reflexivity|].
  assert (K : keys (root_attributes self) = expected_keys self).
  { unfold root_attributes, params_of, expected_keys, as_of_set. cbv zeta.
    set (base := [ ("ODMVersion", _); _; _; _; _; _ ]).
    change ["ODMVersion"; "FileType"; "CreationDateTime"; "Originator";
            "FileOID"; "xmlns"] with (keys base).
    set (p1 := match _granularity_type self with
               | Some g => dict_set base "Granularity" (PyStr (GranularityType.value g))
               | None => base end).
    assert (E1 : keys p1 = keys base
                   ++ optional_key (is_set (_granularity_type self)) "Granularity").
    { unfold p1. destruct (_granularity_type self); cbn [is_set optional_key];
        [apply keys_dict_set_new; cbn; intuition discriminate
        | rewrite app_nil_r; reflexivity]. }
    set (c2 := truthy (source_system self)) in *.
    set (p2 := if c2 then dict_set p1 "SourceSystem" (source_system self) else p1).
    assert (E2 : keys p2 = keys p1 ++ optional_key c2 "SourceSystem").
    { apply keys_dict_set_if. rewrite E1. not_in_keys. }
    set (c3 := truthy (source_system_version self)) in *.
    set (p3 := if c3 then dict_set p2 "SourceSystemVersion"
                            (source_system_version self) else p2).
    assert (E3 : keys p3 = keys p2 ++ optional_key c3 "SourceSystemVersion").
    { apply keys_dict_set_if. rewrite E2, E1. not_in_keys. }
    set (p4 := dict_set p3 "xmlns:mdsol" _).
    assert (E4 : keys p4 = keys p3 ++ ["xmlns:mdsol"]).
    { apply keys_dict_set_new. rewrite E3, E2, E1. not_in_keys. }
    set (c5 := truthy (description self)) in *.
    set (p5 := if c5 then dict_set p4 "Description" (description self) else p4).
    assert (E5 : keys p5 = keys p4 ++ optional_key c5 "Description").
    { apply keys_dict_set_if. rewrite E4, E3, E2, E1. not_in_keys. }
    assert (E6 : keys match _as_of_datetime self with
                      | Some s => if truthy (PyStr s)
                                  then dict_set p5 "AsOfDateTime" (PyStr s) else p5
                      | None => p5
                      end
                 = keys p5
                     ++ optional_key match _as_of_datetime self with
                                     | Some s => truthy (PyStr s)
                                     | None => false
                                     end "AsOfDateTime").
    { destruct (_as_of_datetime self) as [s|];
        [|cbn; rewrite app_nil_r; reflexivity].
      apply keys_dict_set_if. rewrite E5, E4, E3, E2, E1. not_in_keys. }
    rewrite E6, E5, E4, E3, E2, E1. rewrite <- !app_assoc. reflexivity. }
  cbn [attrib_of root_element]. split; [exact K|].
  rewrite K. unfold expected_keys, optional_key.
  destruct (is_set (_granularity_type self)), (truthy (source_system self)),
    (truthy (source_system_version self)), (truthy (description self)),
    (as_of_set self); cbn;
    repeat (constructor; [cbn; intuition discriminate|]); constructor.
Qed.

(** ** Invariants of construction and assignment *)

Lemma append_nonempty s1 s2 :
  String.eqb s1 "" = false -> String.eqb (s1 ++ s2) "" = false.
Proof. destruct s1; [discriminate | reflexivity]. Qed.

Lemma zfill_nonempty w n : String.eqb (zfill (S w) n) "" = false.
Proof. cbn [zfill]. destruct (zfill w (n / 10)); reflexivity. Qed.

Lemma date_isoformat_nonempty d : String.eqb (date_isoformat d) "" = false.
Proof. unfold date_isoformat. apply append_nonempty, zfill_nonempty. Qed.

Lemma isoformat_truthy value s :
  isoformat value = Some s -> truthy (PyStr s) = true.
Proof.
  destruct value as [[| | | |d|t|]|]; try discriminate;
    intro H; injection H as <-; cbn [truthy].
  - rewrite date_isoformat_nonempty. reflexivity.
  - unfold datetime_isoformat.
    rewrite append_nonempty by apply date_isoformat_nonempty. reflexivity.
Qed.

Lemma __init___well_formed env a self :
  __init__ env a = Ok self -> well_formed self.
Proof.
  intro H. rewrite __init___outcome in H. unfold init_outcome in H.
  cbv zeta in H.
  destruct (truthy (arg_granularity a)
            && negb (isinstance_GranularityType (PyVal (arg_granularity a))));
    [discriminate|].
  destruct (truthy (arg_odm_version a)
            && negb (contains VALID_ODM_VERSIONS (PyVal (arg_odm_version a))))
    eqn:Ev; [discriminate|].
  destruct (truthy (arg_as_of_datetime a)
            && negb (isinstance_date (PyVal (arg_as_of_datetime a))));
    [discriminate|].
  injection H as <-. split.
  - cbn [_odm_version set__as_of_datetime set__odm_version].
    destruct (arg_odm_version a) as [| b | z | s | d | t | g];
      cbn [version_of]; try (cbn; auto 6; fail).
    destruct (String.eqb s "") eqn:Es; [cbn; auto 6|].
    apply contains_In. cbn [truthy] in Ev. rewrite Es in Ev.
    cbn [negb andb] in Ev.
    destruct (contains VALID_ODM_VERSIONS (PyVal (PyStr s)));
      [reflexivity | discriminate].
  - cbn [_as_of_datetime set__as_of_datetime]. intros s Hs.
    exact (isoformat_truthy (PyVal (arg_as_of_datetime a)) s Hs).
Qed.

Lemma perform_well_formed indent tostring op self :
  well_formed self -> well_formed (perform indent tostring op self).
Proof.
  intros [Hv Ha].
  destruct op as [other|value|value|value| | | |builder| | ]; cbn [perform].
  - destruct other as [v|c]; [split; assumption|].
    unfold state_after. rewrite __lshift___child.
    destruct (can_receive c self); [|split; assumption]. cbn [fst].
    unfold received. destruct (ch_class c); split; assumption.
  - unfold state_after, odm_version_setter.
    destruct (contains VALID_ODM_VERSIONS value) eqn:E; [|split; assumption].
    destruct value as [[| | |s| | |]|]; try (split; assumption).
    split; [apply contains_In; exact E | exact Ha].
  - unfold state_after, as_of_datetime_setter.
    destruct (isinstance_date value); [|split; assumption].
    cbn [negb]. destruct (isoformat value) as [s|] eqn:E; [|split; assumption].
    split; [exact Hv|]. cbn. intros s' Hs'. injection Hs' as <-.
    exact (isoformat_truthy value s E).
  - unfold state_after, granularity_type_setter.
    destruct (isinstance_GranularityType value); [|split; assumption].
    destruct value as [[| | | | | |g]|]; split; assumption.
  - split; assumption.
  - split; assumption.
  - split; assumption.
  - rewrite read_only_build. split; assumption.
  - rewrite read_only_getroot. split; assumption.
  - rewrite read_only___str__. split; assumption.
Qed.

Lemma reachable_well_formed indent tostring env a self ops :
  __init__ env a = Ok self ->
  well_formed (perform_all indent tostring ops self).
Proof.
  intro H. apply (perform_all_invariant indent tostring well_formed).
  - intros op o. apply perform_well_formed.
  - exact (__init___well_formed env a self H).
Qed.

(** X7: after construction and any sequence of operations, accepted or
    rejected, the stored schema version is one of the allow-list and it is
    the ODMVersion the root renders. *)
Theorem X7_version_always_supported indent tostring env a self ops :
  __init__ env a = Ok self ->
  let self' := perform_all indent tostring ops self in
  In (_odm_version self') VALID_ODM_VERSIONS
  /\ exists root,
       outcome getroot self' = Ok root
       /\ attribute root "ODMVersion" = Some (PyStr (_odm_version self')).
Proof.
  intro H. cbv zeta.
  split; [exact (proj1 (reachable_well_formed indent tostring env a self ops H))|].
  eexists. unfold outcome. rewrite getroot_root_element. split; [reflexivity|].
  root_attribute. reflexivity.
Qed.

Lemma X7_version_always_supported_witness :
  exists self,
    __init__ env0 full_args = Ok self
    /\ In (_odm_version
             (perform_all no_indent tag_only
                [Set_odm_version (PyVal (PyStr "1.2")); Set_odm_version (PyVal (PyStr "2.0"));
                 Set_odm_version (PyVal (PyInt 13))] self))
          VALID_ODM_VERSIONS.
Proof.
  eexists. split; [reflexivity|].
  exact (proj1 (X7_version_always_supported no_indent tag_only env0 full_args _
                  [Set_odm_version (PyVal (PyStr "1.2"));
                   Set_odm_version (PyVal (PyStr "2.0"));
                   Set_odm_version (PyVal (PyInt 13))] eq_refl)).
Defined.

(** X8: the ISO text of a date or date-time is never empty, so an as-of
    timestamp that was assigned is always rendered: right after the
    assignment AsOfDateTime holds that text, and after construction and
    any sequence of operations AsOfDateTime is present exactly when a
    timestamp is stored. *)
Theorem X8_as_of_rendered_when_assigned :
  (forall value self,
     isinstance_date value = true ->
     exists s root,
       isoformat value = Some s
       /\ outcome getroot (state_after (as_of_datetime_setter value) self) = Ok root
       /\ attribute root "AsOfDateTime" = Some (PyStr s))
  /\
  (forall indent tostring env a self ops,
     __init__ env a = Ok self ->
     let self' := perform_all indent tostring ops self in
     exists root,
       outcome getroot self' = Ok root
       /\ present root "AsOfDateTime" = is_set (_as_of_datetime self')).
Proof.
  split.
  - intros value self H.
    destruct (isoformat value) as [s|] eqn:E;
      [|destruct value as [[| | | |d|t|]|]; discriminate].
    exists s. eexists. split; [reflexivity|].
    unfold outcome, state_after, as_of_datetime_setter. rewrite H, E.
    cbn [negb modify fst]. rewrite getroot_root_element. split; [reflexivity|].
    root_attribute. unfold as_of_set. cbn [_as_of_datetime set__as_of_datetime].
    rewrite (isoformat_truthy value s E). reflexivity.
  - intros indent tostring env a self ops H. cbv zeta.
    destruct (reachable_well_formed indent tostring env a self ops H) as [_ Ha].
    eexists. unfold outcome. rewrite getroot_root_element. split; [reflexivity|].
    root_attribute. unfold as_of_set.
    destruct (_as_of_datetime (perform_all indent tostring ops self)) as [s|];
      [|reflexivity].
    rewrite (Ha s eq_refl). reflexivity.
Qed.

Lemma X8_as_of_rendered_when_assigned_witness :
  (isinstance_date (PyVal (PyDate (mk_date 2025 5 31))) = true /\
   exists s root,
     isoformat (PyVal (PyDate (mk_date 2025 5 31))) = Some s
     /\ outcome getroot
          (state_after (as_of_datetime_setter (PyVal (PyDate (mk_date 2025 5 31))))
             bare) = Ok root
     /\ attribute root "AsOfDateTime" = Some (PyStr s))
  /\
  (exists self,
     __init__ env0 sponsor = Ok self
     /\ exists root,
          outcome getroot
            (perform_all no_indent tag_only
               [Set_as_of_datetime (PyVal (PyStr "2025-05-31"))] self) = Ok root
          /\ present root "AsOfDateTime"
             = is_set (_as_of_datetime
                         (perform_all no_indent tag_only
                            [Set_as_of_datetime (PyVal (PyStr "2025-05-31"))] self))).
Proof.
  split.
  - split; [reflexivity|].
    exact (proj1 X8_as_of_rendered_when_assigned
             (PyVal (PyDate (mk_date 2025 5 31))) bare eq_refl).
  - eexists. split; [reflexivity|].
    exact (proj2 X8_as_of_rendered_when_assigned no_indent tag_only env0 sponsor _
             [Set_as_of_datetime (PyVal (PyStr "2025-05-31"))] eq_refl).
Defined.

(** ** How the setters compose *)

Lemma as_of_datetime_setter_accepts value self :
  isinstance_date value = true ->
  exists s, isoformat value = Some s
            /\ as_of_datetime_setter value self
               = (set__as_of_datetime (Some s) self, Ok tt).
Proof.
  intro H. unfold as_of_datetime_setter. rewrite H. cbn [negb].
  destruct value as [[| | | |d|t|]|]; try discriminate;
    eexists; split; reflexivity.
Qed.

(** X9: accepted assignments to one attribute overwrite each other (the
    getter returns the value assigned last), and accepted assignments to
    different attributes can be made in either order with the same
    resulting instance. *)
Theorem X9_setters_compose :
  (forall s1 s2 self,
     In s1 VALID_ODM_VERSIONS -> In s2 VALID_ODM_VERSIONS ->
     (odm_version_setter (PyVal (PyStr s1)) ;;
      odm_version_setter (PyVal (PyStr s2)) ;; odm_version) self
     = (set__odm_version s2 self, Ok s2))
  /\
  (forall g1 g2 self,
     (granularity_type_setter (PyVal (PyEnum g1)) ;;
      granularity_type_setter (PyVal (PyEnum g2)) ;; granularity_type) self
     = (set__granularity_type (Some g2) self, Ok (Some g2)))
  /\
  (forall s w g self,
     In s VALID_ODM_VERSIONS -> isinstance_date w = true ->
     let ver := odm_version_setter (PyVal (PyStr s)) in
     let asof := as_of_datetime_setter w in
     let gran := granularity_type_setter (PyVal (PyEnum g)) in
     (ver ;; asof) self = (asof ;; ver) self
     /\ (ver ;; gran) self = (gran ;; ver) self
     /\ (asof ;; gran) self = (gran ;; asof) self
     /\ outcome (ver ;; asof ;; gran) self = Ok tt)
  /\
  (forall w1 w2 self,
     isinstance_date w1 = true -> isinstance_date w2 = true ->
     exists s2,
       isoformat w2 = Some s2
       /\ (as_of_datetime_setter w1 ;; as_of_datetime_setter w2 ;; as_of_datetime)
            self
          = (set__as_of_datetime (Some s2) self, Ok (Some s2))).
Proof.
  split; [|split; [|split]]; cycle 3.
  - intros w1 w2 self H1 H2. cbn [bind M_Monad].
    destruct (as_of_datetime_setter_accepts w1 self H1) as (s1 & _ & ->).
    destruct (as_of_datetime_setter_accepts w2
                (set__as_of_datetime (Some s1) self) H2) as (s2 & E2 & ->).
    exists s2. split; [exact E2 | reflexivity].
  - intros s1 s2 self H1 H2. cbn [bind M_Monad].
    rewrite (odm_version_setter_accepts s1 self H1).
    rewrite (odm_version_setter_accepts s2 _ H2). reflexivity.
  - intros g1 g2 self. reflexivity.
  - intros s w g self Hs Hw. cbv zeta. unfold outcome. cbn [bind M_Monad].
    destruct (as_of_datetime_setter_accepts w self Hw) as (t & Ew & E0).
    assert (Ea : forall o, as_of_datetime_setter w o
                           = (set__as_of_datetime (Some t) o, Ok tt)).
    { intro o. destruct (as_of_datetime_setter_accepts w o Hw) as (t' & Ew' & E').
      rewrite Ew in Ew'. injection Ew' as <-. exact E'. }
    assert (Ev : forall o, odm_version_setter (PyVal (PyStr s)) o
                           = (set__odm_version s o, Ok tt))
      by (intro o; apply odm_version_setter_accepts; exact Hs).
    assert (Eg : forall o, granularity_type_setter (PyVal (PyEnum g)) o
                           = (set__granularity_type (Some g) o, Ok tt))
      by reflexivity.
    rewrite !Ev, !Ea, !Eg, !Ev, !Ea. repeat split.
Qed.

Lemma X9_setters_compose_witness :
  (In "1.2" VALID_ODM_VERSIONS /\ In "1.3.2" VALID_ODM_VERSIONS /\
   (odm_version_setter (PyVal (PyStr "1.2")) ;;
    odm_version_setter (PyVal (PyStr "1.3.2")) ;; odm_version) bare
   = (set__odm_version "1.3.2" bare, Ok "1.3.2"))
  /\
  (isinstance_date (PyVal (PyDate (mk_date 2025 5 31))) = true /\
   (odm_version_setter (PyVal (PyStr "1.2")) ;;
    as_of_datetime_setter (PyVal (PyDate (mk_date 2025 5 31)))) bare
   = (as_of_datetime_setter (PyVal (PyDate (mk_date 2025 5 31))) ;;
      odm_version_setter (PyVal (PyStr "1.2"))) bare).
Proof.
  assert (I1 : In "1.2" VALID_ODM_VERSIONS) by (cbn; auto 6).
  assert (I2 : In "1.3.2" VALID_ODM_VERSIONS) by (cbn; auto 6).
  destruct X9_setters_compose as (H1 & _ & H3 & _).
  split.
  - split; [exact I1|]. split; [exact I2|]. exact (H1 "1.2" "1.3.2" bare I1 I2).
  - split; [reflexivity|].
    exact (proj1 (H3 "1.2" (PyVal (PyDate (mk_date 2025 5 31)))
                    GranularityType.All bare I1 eq_refl)).
Defined.

(** X10: no operation other than [<<] touches the sub-builders: the
    setters, the getters, [build], [getroot] and [__str__] leave the
    study, the clinical data sections and the administrative data as they
    were, and the root rendered afterwards has the same children. *)
Theorem X10_only_lshift_changes_children indent tostring op self :
  is_Lshift op = false ->
  let self' := perform indent tostring op self in
  study self' = study self
  /\ clinical_data self' = clinical_data self
  /\ admindata self' = admindata self
  /\ exists root root',
       outcome getroot self = Ok root
       /\ outcome getroot self' = Ok root'
       /\ children_of root' = children_of root.
Proof.
  intro H. cbv zeta.
  assert (K : study (perform indent tostring op self) = study self
              /\ clinical_data (perform indent tostring op self) = clinical_data self
              /\ admindata (perform indent tostring op self) = admindata self).
  { destruct op as [other|value|value|value| | | |builder| | ];
      try discriminate; cbn [perform].
    - unfold state_after, odm_version_setter.
      destruct (contains VALID_ODM_VERSIONS value); [|repeat split].
      destruct value as [[| | |s| | |]|]; repeat split.
    - unfold state_after, as_of_datetime_setter.
      destruct (isinstance_date value); [|repeat split].
      cbn [negb]. destruct (isoformat value); repeat split.
    - unfold state_after, granularity_type_setter.
      destruct (isinstance_GranularityType value); [|repeat split].
      destruct value as [[| | | | | |g]|]; repeat split.
    - repeat split.
    - repeat split.
    - repeat split.
    - rewrite read_only_build. repeat split.
    - rewrite read_only_getroot. repeat split.
    - rewrite read_only___str__. repeat split. }
  destruct K as (Ks & Kc & Ka).
  split; [exact Ks|]. split; [exact Kc|]. split; [exact Ka|].
  exists (root_element self), (root_element (perform indent tostring op self)).
  unfold outcome. rewrite !getroot_root_element.
  split; [reflexivity|]. split; [reflexivity|].
  cbn [children_of root_element]. unfold ordered_children.
  rewrite Ks, Kc, Ka. reflexivity.
Qed.

Lemma X10_only_lshift_changes_children_witness :
  is_Lshift (Set_odm_version (PyVal (PyStr "1.2"))) = false /\
  clinical_data (perform no_indent tag_only (Set_odm_version (PyVal (PyStr "1.2")))
                   populated)
  = clinical_data populated.
Proof.
  split; [reflexivity|].
  exact (proj1 (proj2 (X10_only_lshift_changes_children no_indent tag_only
                         (Set_odm_version (PyVal (PyStr "1.2"))) populated eq_refl))).
Defined.

(** X11: [build] on a new tree builder returns the element [getroot]
    returns and leaves the builder with no open element, so that closing
    it again returns that element once more; the root itself has neither
    text nor tail. *)
Theorem X11_build_agrees_with_getroot self :
  exists builder root,
    outcome (build TreeBuilder_new) self = Ok (builder, root)
    /\ outcome getroot self = Ok root
    /\ _elem builder = []
    /\ close builder = Ok root
    /\ text_of root = None /\ tail_of root = None.
Proof.
  exists (mk_tb [] [] LastRoot (Some (root_element self))), (root_element self).
  unfold outcome. rewrite build_new, getroot_root_element. repeat split.
Qed.
